(** * verso extension hooks: commit-validator and git-tagger

    A shallow embedding of
      - contrib/extensions/commit-validator/hook.py
      - contrib/extensions/git-tagger/hook.py
    and the properties of their validation engine, tag lifecycle and
    request/response protocol.

    Modelling conventions.
      - A Python [str] is a Rocq [string]; a character is read as the code
        point U+0000..U+00FF it denotes, so [str.lower], [str.isspace] and the
        [re] classes are the Latin-1 restriction of Python's.
      - [subprocess.run(["git"] + args, cwd=...)] is an oracle over an abstract
        world: it answers with a zero exit, a non-zero exit
        ([CalledProcessError]) or an [OSError] raised before the process ran.
      - Code that talks to git lives in a state-and-exception monad over that
        world; the world also records the argument vectors handed to git.
      - Request and config fields carry the types the hook protocol gives them
        (strings, booleans, a list of strings); an absent key is [None]. *)

From Stdlib Require Import String Ascii List Bool Arith ZArith Lia.
From Stdlib Require Import DecimalString.
Import ListNotations.
Open Scope list_scope.
Open Scope string_scope.

Set Implicit Arguments.

(* ================================================================== *)
(** ** Python strings *)

Module PyStr.

Definition code (c : ascii) : nat := nat_of_ascii c.

Definition in_range (lo hi : nat) (c : ascii) : bool :=
  ((lo <=? code c)%nat && (code c <=? hi)%nat)%bool.

(** [str.isspace] / the [\s] class of [re] on a one-character string:
    U+0009..U+000D, U+001C..U+0020, U+0085 and U+00A0. *)
Definition is_space (c : ascii) : bool :=
  (in_range 9 13 c || in_range 28 32 c || (code c =? 133)%nat || (code c =? 160)%nat)%bool.

(** The class [[a-z]]. *)
Definition is_az (c : ascii) : bool := in_range 97 122 c.

(** The class [[0-9]]. *)
Definition is_digit (c : ascii) : bool := in_range 48 57 c.

(** Letters that [str.lower] changes: A-Z and the upper-case letters of
    Latin-1 (U+00C0..U+00DE without the multiplication sign U+00D7). *)
Definition is_upper (c : ascii) : bool :=
  (in_range 65 90 c || (in_range 192 222 c && negb (code c =? 215)%nat))%bool.

Definition lower_char (c : ascii) : ascii :=
  if is_upper c then ascii_of_nat (code c + 32) else c.

(** [s.lower()] *)
Fixpoint lower (s : string) : string :=
  match s with
  | EmptyString => EmptyString
  | String c s' => String (lower_char c) (lower s')
  end.

Definition newline : ascii := "010"%char.

(** [s.lstrip()] *)
Fixpoint lstrip (s : string) : string :=
  match s with
  | EmptyString => EmptyString
  | String c s' => if is_space c then lstrip s' else s
  end.

(** [s.rstrip()] *)
Fixpoint rstrip (s : string) : string :=
  match s with
  | EmptyString => EmptyString
  | String c s' =>
      match rstrip s' with
      | EmptyString => if is_space c then EmptyString else String c EmptyString
      | r => String c r
      end
  end.

(** [s.strip()] *)
Definition strip (s : string) : string := rstrip (lstrip s).

(** [s.split("\n")]: the pieces between newlines, at least one piece. *)
Fixpoint split_lines (s : string) : list string :=
  match s with
  | EmptyString => [EmptyString]
  | String c s' =>
      if Ascii.eqb c newline then EmptyString :: split_lines s'
      else match split_lines s' with
           | [] => [String c EmptyString]
           | l :: ls => String c l :: ls
           end
  end.

(** Truthiness of a string: [bool(s)]. *)
Definition truthy (s : string) : bool :=
  match s with EmptyString => false | _ => true end.

(** [sep.join(l)] *)
Definition join (sep : string) (l : list string) : string := String.concat sep l.

(** [x in l] for a list of strings. *)
Fixpoint mem (x : string) (l : list string) : bool :=
  match l with
  | [] => false
  | y :: l' => String.eqb x y || mem x l'
  end.

(** [s[:n]] *)
Definition take (n : nat) (s : string) : string := String.substring 0 n s.

(** [str(n)] for a non-negative integer. *)
Definition of_nat (n : nat) : string := NilEmpty.string_of_uint (Nat.to_uint n).

(** [s.replace("", new)]: [new] before every character and at the end. *)
Fixpoint interleave (new s : string) : string :=
  match s with
  | EmptyString => new
  | String c s' => new ++ String c (interleave new s')
  end.

(** [s.replace(old, new)]: every non-overlapping occurrence of [old], left
    to right.  The fuel is the length of [s]; each step consumes at least
    one character. *)
Fixpoint replace_fuel (fuel : nat) (old new s : string) : string :=
  match fuel with
  | O => s
  | S fuel' =>
      match s with
      | EmptyString => EmptyString
      | String c s' =>
          if String.prefix old s
          then new ++ replace_fuel fuel' old new
                        (String.substring (String.length old)
                           (String.length s - String.length old) s)
          else String c (replace_fuel fuel' old new s')
      end
  end.

Definition replace (old new s : string) : string :=
  match old with
  | EmptyString => interleave new s
  | _ => replace_fuel (String.length s) old new s
  end.

(** Every character of [s] is in the class [cls]. *)
Fixpoint all (cls : ascii -> bool) (s : string) : bool :=
  match s with
  | EmptyString => true
  | String c s' => cls c && all cls s'
  end.

(** Some character of [s] is in the class [cls]. *)
Fixpoint any (cls : ascii -> bool) (s : string) : bool :=
  match s with
  | EmptyString => false
  | String c s' => cls c || any cls s'
  end.

(** The longest prefix of [s] made of characters of [cls]. *)
Fixpoint leading (cls : ascii -> bool) (s : string) : string :=
  match s with
  | EmptyString => EmptyString
  | String c s' => if cls c then String c (leading cls s') else EmptyString
  end.

End PyStr.

(* ================================================================== *)
(** ** The fragment of Python's [re] the validator uses

    A backtracking matcher in continuation-passing style: alternatives are
    tried in Python's order (greedy repetition first, the optional group
    before its absence) and the first complete match wins. *)

Module Re.

Inductive regex : Type :=
| Bol                                  (* ^ *)
| Eol                                  (* $ *)
| Lit (c : ascii)                      (* a literal character *)
| Plus (cls : ascii -> bool)           (* cls+ and cls{1,}, greedy *)
| Opt (r : regex)                      (* r?, greedy *)
| Group (n : nat) (r : regex)          (* capturing group number n *)
| Seq (r1 r2 : regex).

Definition captures := list (nat * string).

(** Matcher state: characters consumed so far, the rest of the subject and
    the groups captured on the current path. *)
Record mstate : Type := MState {
  pos : nat;
  rest : string;
  caps : captures
}.

Definition advance (n : nat) (r : string) (st : mstate) : mstate :=
  MState (pos st + n) r (caps st).

Definition set_group (n : nat) (txt : string) (st : mstate) : mstate :=
  MState (pos st) (rest st) ((n, txt) :: caps st).

(** [$] without MULTILINE: the end of the subject, or just before a newline
    that ends it. *)
Definition at_end (s : string) : bool :=
  match s with
  | EmptyString => true
  | String c EmptyString => Ascii.eqb c PyStr.newline
  | _ => false
  end.

(** One or more characters of [cls] from the front of [s], longest first;
    [k] receives the number of characters taken and what is left. *)
Fixpoint plus_loop (A : Type) (cls : ascii -> bool) (s : string) (n : nat)
         (k : nat -> string -> option A) : option A :=
  match s with
  | EmptyString => None
  | String c s' =>
      if cls c then
        match plus_loop cls s' (S n) k with
        | Some a => Some a
        | None => k (S n) s'
        end
      else None
  end.

Fixpoint exec (A : Type) (r : regex) (st : mstate) (k : mstate -> option A)
  : option A :=
  match r with
  | Bol => if Nat.eqb (pos st) 0 then k st else None
  | Eol => if at_end (rest st) then k st else None
  | Lit c =>
      match rest st with
      | String c' s' => if Ascii.eqb c c' then k (advance 1 s' st) else None
      | EmptyString => None
      end
  | Plus cls =>
      plus_loop cls (rest st) 0 (fun n s' => k (advance n s' st))
  | Opt r1 =>
      match exec r1 st k with
      | Some a => Some a
      | None => k st
      end
  | Group n r1 =>
      exec r1 st
        (fun st' => k (set_group n (PyStr.take (pos st' - pos st) (rest st)) st'))
  | Seq r1 r2 => exec r1 st (fun st' => exec r2 st' k)
  end.

(** [re.match(pattern, s)]: anchored at position 0; the match object is
    represented by its captured groups. *)
Definition re_match (pattern : regex) (s : string) : option captures :=
  exec pattern (MState 0 s []) (fun st => Some (caps st)).

(** [m.group(n)]; a group that did not take part yields the empty string
    here (Python yields [None]). *)
Fixpoint group (m : captures) (n : nat) : string :=
  match m with
  | [] => EmptyString
  | (i, txt) :: m' => if Nat.eqb i n then txt else group m' n
  end.

(** What it means for [r] to match from one state to another, without the
    search order: the reference the matcher is checked against. *)
Inductive matches : regex -> mstate -> mstate -> Prop :=
| MBol st : pos st = 0 -> matches Bol st st
| MEol st : at_end (rest st) = true -> matches Eol st st
| MLit c s' st : rest st = String c s' -> matches (Lit c) st (advance 1 s' st)
| MPlus cls t s' st :
    rest st = t ++ s' -> t <> EmptyString -> PyStr.all cls t = true ->
    matches (Plus cls) st (advance (String.length t) s' st)
| MOptSome r st st' : matches r st st' -> matches (Opt r) st st'
| MOptNone r st : matches (Opt r) st st
| MGroup n r st st' :
    matches r st st' ->
    matches (Group n r) st
            (set_group n (PyStr.take (pos st' - pos st) (rest st)) st')
| MSeq r1 r2 st st1 st2 :
    matches r1 st st1 -> matches r2 st1 st2 -> matches (Seq r1 r2) st st2.

(** The character classes of the patterns. *)
Definition cls_az : ascii -> bool := PyStr.is_az.
Definition cls_scope (c : ascii) : bool :=
  (PyStr.is_az c || PyStr.is_digit c || Ascii.eqb c "-"%char)%bool.
Definition cls_space : ascii -> bool := PyStr.is_space.
Definition cls_dot (c : ascii) : bool := negb (Ascii.eqb c PyStr.newline).

Fixpoint seq (rs : list regex) (last : regex) : regex :=
  match rs with
  | [] => last
  | r :: rs' => Seq r (seq rs' last)
  end.

End Re.

(* ================================================================== *)
(** ** What both hooks share: responses, the git oracle, the monad *)

Module Host.

(** The JSON values that occur in a response's [data]. *)
#[warnings="-register-all"]
Inductive json : Type :=
| JInt (n : nat)
| JStr (s : string)
| JArr (items : list json)
| JObj (fields : list (string * json)).

(** [{"success": ..., "message": ..., "data": {...}}] *)
Record response : Type := Response {
  success : bool;
  message : string;
  data : list (string * json)
}.

(** What [subprocess.run(..., check=True)] can do. *)
Inductive proc_result : Type :=
| Exit0 (stdout : string)              (* returncode 0 *)
| ExitNonzero (stderr : string)        (* CalledProcessError *)
| OsError (detail : string).           (* raised before git ran *)

(** The git binary: argument vector and working directory against a world. *)
Definition oracle (W : Type) : Type :=
  list string -> string -> W -> proc_result * W.

(** The world plus the record of argument vectors handed to git. *)
Record env (W : Type) : Type := Env {
  world : W;
  issued : list (list string)
}.

Inductive outcome (A : Type) : Type :=
| Ret (a : A)
| Raise (detail : string).
Arguments Raise {A} detail.

Definition M (W A : Type) : Type := env W -> outcome A * env W.

Definition ret {W A : Type} (a : A) : M W A := fun e => (Ret a, e).

Definition raise {W A : Type} (detail : string) : M W A :=
  fun e => (Raise detail, e).

Definition bind {W A B : Type} (m : M W A) (f : A -> M W B) : M W B :=
  fun e =>
    match m e with
    | (Ret a, e') => f a e'
    | (Raise d, e') => (Raise d, e')
    end.

Definition subprocess_run {W : Type} (git : oracle W)
           (args : list string) (cwd : string) : M W proc_result :=
  fun e =>
    let (r, w') := git args cwd (world e) in
    (Ret r, Env w' (issued e ++ [args])%list).

(** What [json.load(sys.stdin)] hands to [main]. *)
Inductive stdin_doc (Req : Type) : Type :=
| Malformed (detail : string)          (* JSONDecodeError *)
| Doc (req : Req).
Arguments Malformed {Req} detail.

(** The two outer [except] clauses of [main]; [sys.exit] inside the [try]
    is not an [Exception] and passes through. *)
Definition guarded {W : Type} (body : M W (response * nat))
  : env W -> (response * nat) * env W :=
  fun e =>
    match body e with
    | (Ret x, e') => (x, e')
    | (Raise d, e') => ((Response false ("Unexpected error: " ++ d) [], 1), e')
    end.

(** [d.get(key, default)] on a key that is present ([Some]) or absent. *)
Definition get {A : Type} (o : option A) (default : A) : A :=
  match o with Some a => a | None => default end.

Definition invalid_json (detail : string) : response * nat :=
  (Response false ("Invalid JSON input: " ++ detail) [], 1).

Definition missing_field (field : string) : response * nat :=
  (Response false ("Missing required field: " ++ field) [], 1).

End Host.

Declare Scope git_scope.
Delimit Scope git_scope with git.
Notation "x <- m ;; k" := (Host.bind m (fun x => k))
  (at level 61, m at next level, right associativity) : git_scope.
Notation "' p <- m ;; k" := (Host.bind m (fun p => k))
  (at level 61, p pattern, m at next level, right associativity) : git_scope.

(* ================================================================== *)
(** ** commit-validator/hook.py *)

Module CommitValidator.
Import Host.

(** [r"^([a-z]+)\(([a-z0-9\-]+)\):\s+.{1,}$"] *)
Definition pattern_scoped : Re.regex :=
  Re.seq [Re.Bol; Re.Group 1 (Re.Plus Re.cls_az); Re.Lit "("%char;
          Re.Group 2 (Re.Plus Re.cls_scope); Re.Lit ")"%char; Re.Lit ":"%char;
          Re.Plus Re.cls_space; Re.Plus Re.cls_dot] Re.Eol.

(** [r"^([a-z]+)(\([a-z0-9\-]+\))?:\s+.{1,}$"] *)
Definition pattern_any : Re.regex :=
  Re.seq [Re.Bol; Re.Group 1 (Re.Plus Re.cls_az);
          Re.Opt (Re.Group 2 (Re.seq [Re.Lit "("%char; Re.Plus Re.cls_scope]
                                     (Re.Lit ")"%char)));
          Re.Lit ":"%char; Re.Plus Re.cls_space; Re.Plus Re.cls_dot] Re.Eol.

Definition pattern (require_scope : bool) : Re.regex :=
  if require_scope then pattern_scoped else pattern_any.

Definition format_error (require_scope : bool) : string :=
  if require_scope
  then "must match format 'type(scope): description'"
  else "must match format 'type: description' or 'type(scope): description'".

Definition type_error (commit_type : string) (allowed_types : list string) : string :=
  "type '" ++ commit_type ++ "' not in allowed types: "
    ++ PyStr.join ", " allowed_types.

(** The pattern of the testable property: [r"^([a-z]+): .+$"], the type
    token being group 1. *)
Definition pattern_plain : Re.regex :=
  Re.seq [Re.Bol; Re.Group 1 (Re.Plus Re.cls_az); Re.Lit ":"%char;
          Re.Lit " "%char; Re.Plus Re.cls_dot] Re.Eol.

(** The shape check of [validate_conventional_commit]. *)
Definition shape_matches (message : string) (require_scope : bool) : bool :=
  match Re.re_match (pattern require_scope) (PyStr.lower message) with
  | Some _ => true
  | None => false
  end.

Definition nonempty {A : Type} (l : list A) : bool :=
  match l with [] => false | _ => true end.

Definition validate_conventional_commit
           (message : string) (allowed_types : list string) (require_scope : bool)
  : bool * string :=
  match Re.re_match (pattern require_scope) (PyStr.lower message) with
  | None => (false, format_error require_scope)
  | Some m =>
      let commit_type := Re.group m 1 in
      if nonempty allowed_types && negb (PyStr.mem commit_type allowed_types)
      then (false, type_error commit_type allowed_types)
      else (true, "")
  end.

(** The recognised keys of the validator's [config]; [None] is an absent key. *)
Record config : Type := Config {
  opt_allowed_types : option (list string);
  opt_require_scope : option bool
}.

Definition no_config : config := Config None None.

Definition default_allowed_types : list string :=
  ["feat"; "fix"; "docs"; "style"; "refactor"; "perf"; "test"; "build"; "ci";
   "chore"; "revert"].

(** The entries of [invalid_commits]: [{"message": commit, "error": error}]. *)
Definition validate_commits (commits : list string) (cfg : config)
  : list (string * string) :=
  let allowed_types := get (opt_allowed_types cfg) default_allowed_types in
  let require_scope := get (opt_require_scope cfg) false in
  flat_map
    (fun commit =>
       let '(is_valid, error) :=
         validate_conventional_commit commit allowed_types require_scope in
       if is_valid then [] else [(commit, error)])
    commits.

Record request : Type := Request {
  project_root : option string;
  req_config : option config
}.

Definition describe_args : list string := ["describe"; "--tags"; "--abbrev=0"].

(** The argument vector of the git log that follows the describe: the
    range after the last tag when there is one, the whole history
    otherwise. *)
Definition log_args (success : bool) (last_tag : string) : list string :=
  if success && PyStr.truthy last_tag
  then ["log"; last_tag ++ "..HEAD"; "--pretty=format:%s"]
  else ["log"; "--pretty=format:%s"].

Section WithGit.
Variable W : Type.
Variable git : oracle W.
Local Open Scope git_scope.

Definition run_git_command (args : list string) (cwd : string)
  : M W (bool * string) :=
  r <- subprocess_run git args cwd ;;
  match r with
  | Exit0 out => ret (true, PyStr.strip out)
  | ExitNonzero err => ret (false, PyStr.strip err)
  | OsError d => raise d
  end.

Definition get_commits_since_last_tag (project_root : string)
  : M W (bool * list string) :=
  '(success, last_tag) <-
    run_git_command describe_args project_root ;;
  '(success, commits) <-
    run_git_command (log_args success last_tag) project_root ;;
  if negb success then ret (false, [])
  else
    ret (true,
         map PyStr.strip
             (filter (fun c => PyStr.truthy (PyStr.strip c))
                     (PyStr.split_lines commits))).

Definition error_detail (item : string * string) : string :=
  "  - " ++ PyStr.take 60 (fst item) ++ "... -> " ++ snd item.

Definition invalid_json_item (item : string * string) : json :=
  JObj [("message", JStr (fst item)); ("error", JStr (snd item))].

Definition main_body (req : request) : M W (response * nat) :=
  let project_root := project_root req in
  let config := get (req_config req) no_config in
  match project_root with
  | None => ret (missing_field "project_root")
  | Some root =>
      if negb (PyStr.truthy root) then ret (missing_field "project_root")
      else
        '(success, commits) <- get_commits_since_last_tag root ;;
        if negb success then
          ret (Response false
                 "Failed to retrieve git commits. Ensure you are in a git repository."
                 [], 1)
        else if negb (nonempty commits) then
          ret (Response true "No commits to validate"
                 [("commits_checked", JInt 0)], 0)
        else
          let invalid_commits := validate_commits commits config in
          if nonempty invalid_commits then
            let message :=
              "Found " ++ PyStr.of_nat (length invalid_commits)
                ++ " invalid commit(s):" ++ String PyStr.newline ""
                ++ PyStr.join (String PyStr.newline "")
                     (map error_detail invalid_commits) in
            ret (Response false message
                   [("commits_checked", JInt (length commits));
                    ("invalid_count", JInt (length invalid_commits));
                    ("invalid_commits",
                     JArr (map invalid_json_item invalid_commits))], 1)
          else
            ret (Response true
                   ("All " ++ PyStr.of_nat (length commits)
                      ++ " commit(s) follow conventional commit format")
                   [("commits_checked", JInt (length commits));
                    ("invalid_count", JInt 0)], 0)
  end.

(** The response printed on stdout and the exit status. *)
Definition main (stdin : stdin_doc request)
  : env W -> (response * nat) * env W :=
  match stdin with
  | Malformed detail => fun e => (invalid_json detail, e)
  | Doc req => guarded (main_body req)
  end.

End WithGit.

End CommitValidator.

(* ================================================================== *)
(** ** git-tagger/hook.py *)

Module GitTagger.
Import Host.

(** The recognised keys of the tagger's [config]; [None] is an absent key. *)
Record config : Type := Config {
  opt_prefix : option string;
  opt_annotated : option bool;
  opt_sign : option bool;
  opt_message : option string;
  opt_push : option bool
}.

Definition no_config : config := Config None None None None None.

Record request : Type := Request {
  version : option string;
  project_root : option string;
  req_config : option config
}.

(** [tag_name = f"{prefix}{version}"] *)
Definition tag_name_of (cfg : config) (version : string) : string :=
  get (opt_prefix cfg) "v" ++ version.

(** [tag_message = message_template.replace("{version}", version)] *)
Definition tag_message_of (cfg : config) (version : string) : string :=
  PyStr.replace "{version}" version (get (opt_message cfg) "Release {version}").

(** The argument vector of the creating [git tag]. *)
Definition tag_args_of (cfg : config) (version : string) : list string :=
  let annotated := get (opt_annotated cfg) true in
  let sign := get (opt_sign cfg) false in
  let tag_name := tag_name_of cfg version in
  (["tag"] ++
   (if annotated
    then ["-a"; tag_name; "-m"; tag_message_of cfg version]
           ++ (if sign then ["-s"] else [])
    else [tag_name]))%list.

Definition list_args (tag_name : string) : list string := ["tag"; "-l"; tag_name].

Definition push_args (tag_name : string) : list string := ["push"; "origin"; tag_name].

Section WithGit.
Variable W : Type.
Variable git : oracle W.
Local Open Scope git_scope.

Definition run_git_command (args : list string) (cwd : string)
  : M W (bool * string) :=
  r <- subprocess_run git args cwd ;;
  match r with
  | Exit0 out => ret (true, PyStr.strip out)
  | ExitNonzero err => ret (false, PyStr.strip err)
  | OsError d => raise d
  end.

Definition create_tag (version : string) (cfg : config) (project_root : string)
  : M W (bool * string) :=
  let push := get (opt_push cfg) false in
  let tag_name := tag_name_of cfg version in
  '(success, _) <- run_git_command (list_args tag_name) project_root ;;
  already <-
    (if success : bool then
       '(existing_tags_success, existing_tags) <-
         run_git_command (list_args tag_name) project_root ;;
       ret (existing_tags_success && PyStr.truthy existing_tags)
     else ret false) ;;
  if already : bool then ret (false, "Tag " ++ tag_name ++ " already exists")
  else
    '(success, output) <- run_git_command (tag_args_of cfg version) project_root ;;
    if negb success then ret (false, "Failed to create tag: " ++ output)
    else if push then
      '(success, output) <- run_git_command (push_args tag_name) project_root ;;
      if negb success then ret (false, "Tag created but failed to push: " ++ output)
      else ret (true, "Created and pushed tag " ++ tag_name)
    else ret (true, "Created tag " ++ tag_name).

(** How the hook sees that the tag is there: the listing exits with 0,
    prints something, and leaves the world as it was. *)
Definition tag_exists (project_root tag_name : string) (w : W) : Prop :=
  exists out,
    git (list_args tag_name) project_root w = (Exit0 out, w)
    /\ PyStr.truthy (PyStr.strip out) = true.

(** How the hook sees that the tag is not there: the listing prints
    nothing, or exits with an error; the world is as it was. *)
Definition tag_absent (project_root tag_name : string) (w : W) : Prop :=
  (exists out,
      git (list_args tag_name) project_root w = (Exit0 out, w)
      /\ PyStr.truthy (PyStr.strip out) = false)
  \/ (exists err, git (list_args tag_name) project_root w = (ExitNonzero err, w)).

(** The listings the existence check issues: two when the first one exits
    with 0, one otherwise. *)
Definition check_args (project_root tag_name : string) (w : W)
  : list (list string) :=
  match fst (git (list_args tag_name) project_root w) with
  | Exit0 _ => [list_args tag_name; list_args tag_name]
  | _ => [list_args tag_name]
  end.

Definition main_body (req : request) : M W (response * nat) :=
  let config := get (req_config req) no_config in
  match version req with
  | None => ret (missing_field "version")
  | Some version =>
      if negb (PyStr.truthy version) then ret (missing_field "version")
      else
        match project_root req with
        | None => ret (missing_field "project_root")
        | Some root =>
            if negb (PyStr.truthy root) then ret (missing_field "project_root")
            else
              '(success, message) <- create_tag version config root ;;
              ret (Response success message [], if success then 0 else 1)
        end
  end.

(** The response printed on stdout and the exit status. *)
Definition main (stdin : stdin_doc request)
  : env W -> (response * nat) * env W :=
  match stdin with
  | Malformed detail => fun e => (invalid_json detail, e)
  | Doc req => guarded (main_body req)
  end.

End WithGit.

End GitTagger.

(* ================================================================== *)
(** ** A small stand-in for git

    Enough of git to run the hooks on concrete repositories: whether the
    directory is a working tree, its tags (newest first), the subject lines
    git log prints, and whether the remote accepts a push.  It is used to
    evaluate the hooks on examples; the general theorems below quantify
    over every oracle. *)

Module SimGit.
Import Host.

Record repo : Type := Repo {
  is_repo : bool;
  tags : list string;
  subjects : string;
  remote_ok : bool
}.

Definition add_tag (n : string) (w : repo) : repo :=
  Repo (is_repo w) (n :: tags w) (subjects w) (remote_ok w).

Definition create (n : string) (w : repo) : proc_result * repo :=
  if PyStr.mem n (tags w)
  then (ExitNonzero ("fatal: tag '" ++ n ++ "' already exists"), w)
  else (Exit0 "", add_tag n w).

Definition git : oracle repo :=
  fun args cwd w =>
    if negb (is_repo w)
    then (ExitNonzero "fatal: not a git repository", w)
    else
      match args with
      | [cmd; a; b] =>
          if String.eqb cmd "tag" && String.eqb a "-l"
          then (Exit0 (if PyStr.mem b (tags w) then b else ""), w)
          else if String.eqb cmd "push" && String.eqb a "origin"
          then (if remote_ok w && PyStr.mem b (tags w)
                then (Exit0 "", w)
                else (ExitNonzero "fatal: unable to access remote", w))
          else if String.eqb cmd "describe"
          then match tags w with
               | [] => (ExitNonzero "fatal: No names found", w)
               | t :: _ => (Exit0 t, w)
               end
          else if String.eqb cmd "log" then (Exit0 (subjects w), w)
          else (ExitNonzero "usage", w)
      | [cmd; a] =>
          if String.eqb cmd "tag" then create a w
          else if String.eqb cmd "log" then (Exit0 (subjects w), w)
          else (ExitNonzero "usage", w)
      | cmd :: flag :: n :: _ =>
          if String.eqb cmd "tag" && String.eqb flag "-a" then create n w
          else (ExitNonzero "usage", w)
      | _ => (ExitNonzero "usage", w)
      end.

Definition start (w : repo) : env repo := Env w [].

End SimGit.

(* ================================================================== *)
(** * Properties *)

Unset Implicit Arguments.

(** ** Strings *)

Lemma append_nil_r (s : string) : s ++ "" = s.
Proof. induction s; simpl; congruence. Qed.

Lemma append_assoc (a b c : string) : (a ++ b) ++ c = a ++ (b ++ c).
Proof. induction a; simpl; congruence. Qed.

Lemma length_append (a b : string) :
  String.length (a ++ b) = String.length a + String.length b.
Proof. induction a; simpl; congruence. Qed.

Lemma take_append (a b : string) : PyStr.take (String.length a) (a ++ b) = a.
Proof.
  unfold PyStr.take. induction a as [|c a IH]; simpl.
  - destruct b; reflexivity.
  - now rewrite IH.
Qed.

Lemma all_append cls (a b : string) :
  PyStr.all cls (a ++ b) = PyStr.all cls a && PyStr.all cls b.
Proof.
  induction a as [|c a IH]; simpl; [reflexivity|].
  rewrite IH. now rewrite andb_assoc.
Qed.

(** The leading run is decided by the first character outside the class. *)
Lemma leading_split cls (t r : string) (c : ascii) :
  PyStr.all cls t = true -> cls c = false ->
  PyStr.leading cls (t ++ String c r) = t.
Proof.
  induction t as [|a t IH]; simpl; intros Ht Hc.
  - now rewrite Hc.
  - apply andb_true_iff in Ht as [Ha Ht]. rewrite Ha. f_equal. now apply IH.
Qed.

Lemma leading_all cls (s : string) : PyStr.all cls (PyStr.leading cls s) = true.
Proof.
  induction s as [|c s IH]; simpl; [reflexivity|].
  destruct (cls c) eqn:E; simpl; [now rewrite E|reflexivity].
Qed.

Lemma mem_In (x : string) (l : list string) : PyStr.mem x l = true <-> In x l.
Proof.
  induction l as [|y l IH]; simpl.
  - split; [discriminate|tauto].
  - rewrite orb_true_iff, IH, String.eqb_eq. split; intros [H|H]; auto.
Qed.

(** ** [str.lower] *)

Ltac each_char c := destruct c as [[] [] [] [] [] [] [] []].

Lemma lower_char_az (c : ascii) : PyStr.is_az c = true -> PyStr.lower_char c = c.
Proof. each_char c; vm_compute; congruence. Qed.

Lemma lower_char_dot (c : ascii) : Re.cls_dot (PyStr.lower_char c) = Re.cls_dot c.
Proof. each_char c; reflexivity. Qed.

Lemma lower_append (a b : string) :
  PyStr.lower (a ++ b) = PyStr.lower a ++ PyStr.lower b.
Proof. induction a; simpl; congruence. Qed.

Lemma lower_az (t : string) : PyStr.all PyStr.is_az t = true -> PyStr.lower t = t.
Proof.
  induction t as [|c t IH]; simpl; [reflexivity|].
  intros H. apply andb_true_iff in H as [Hc Ht].
  now rewrite lower_char_az, IH.
Qed.

Lemma lower_dot (d : string) :
  PyStr.all Re.cls_dot (PyStr.lower d) = PyStr.all Re.cls_dot d.
Proof. induction d as [|c d IH]; simpl; [reflexivity|]. now rewrite lower_char_dot, IH. Qed.

Lemma lower_nonempty (d : string) : d <> "" -> PyStr.lower d <> "".
Proof. destruct d; simpl; congruence. Qed.

Lemma lower_at_end (e : string) : Re.at_end e = true -> PyStr.lower e = e.
Proof.
  destruct e as [|c [|c' e]]; simpl; try discriminate; [reflexivity|].
  intros H. apply Ascii.eqb_eq in H. now subst c.
Qed.

(** ** The matcher against its reference *)

Lemma plus_loop_sound (A : Type) cls (s : string) :
  forall (n : nat) (k : nat -> string -> option A) (a : A),
    Re.plus_loop cls s n k = Some a ->
    exists t s', s = t ++ s' /\ t <> "" /\ PyStr.all cls t = true
                 /\ k (n + String.length t) s' = Some a.
Proof.
  induction s as [|c s IH]; simpl; intros n k a H; [discriminate|].
  destruct (cls c) eqn:Hc; [|discriminate].
  destruct (Re.plus_loop cls s (S n) k) eqn:Hl.
  - injection H as ->. apply IH in Hl as (t & s' & -> & Ht & Hall & Hk).
    exists (String c t), s'. simpl. rewrite Hc, Hall.
    repeat split; try congruence.
    now rewrite <- Hk, Nat.add_succ_r.
  - exists (String c ""), s. simpl. rewrite Hc.
    repeat split; try congruence.
    now rewrite Nat.add_1_r.
Qed.

Lemma plus_loop_complete (A : Type) cls (t : string) :
  forall (s' : string) (n : nat) (k : nat -> string -> option A) (a : A),
    t <> "" -> PyStr.all cls t = true ->
    k (n + String.length t) s' = Some a ->
    exists a', Re.plus_loop cls (t ++ s') n k = Some a'.
Proof.
  induction t as [|c t IH]; intros s' n k a Hne Hall Hk; [congruence|].
  simpl in *. apply andb_true_iff in Hall as [Hc Hall]. rewrite Hc.
  destruct (Re.plus_loop cls (t ++ s') (S n) k) eqn:Hl; [eauto|].
  destruct t as [|c' t].
  - simpl in *. rewrite Nat.add_1_r in Hk. eauto.
  - exfalso.
    destruct (IH s' (S n) k a) as [a' Ha']; try congruence.
    now rewrite <- Hk, Nat.add_succ_r.
Qed.

(** Whatever the matcher finds is a match of the reference ... *)
Lemma exec_sound (A : Type) (r : Re.regex) :
  forall (st : Re.mstate) (k : Re.mstate -> option A) (a : A),
    Re.exec r st k = Some a ->
    exists st', Re.matches r st st' /\ k st' = Some a.
Proof.
  induction r as [| |c|cls|r IH|n r IH|r1 IH1 r2 IH2]; simpl; intros st k a H.
  - destruct (Nat.eqb (Re.pos st) 0) eqn:E; [|discriminate].
    apply Nat.eqb_eq in E. exists st. split; [now constructor|assumption].
  - destruct (Re.at_end (Re.rest st)) eqn:E; [|discriminate].
    exists st. split; [now constructor|assumption].
  - destruct (Re.rest st) as [|c' s'] eqn:E; [discriminate|].
    destruct (Ascii.eqb c c') eqn:Ec; [|discriminate].
    apply Ascii.eqb_eq in Ec. subst c'.
    exists (Re.advance 1 s' st). split; [now constructor|assumption].
  - apply plus_loop_sound in H as (t & s' & Hs & Hne & Hall & Hk).
    exists (Re.advance (String.length t) s' st). split; [now constructor|assumption].
  - destruct (Re.exec r st k) eqn:E.
    + injection H as ->. apply IH in E as (st' & Hm & Hk).
      exists st'. split; [now apply Re.MOptSome|assumption].
    + exists st. split; [apply Re.MOptNone|assumption].
  - apply IH in H as (st' & Hm & Hk).
    eexists. split; [apply Re.MGroup; eassumption|assumption].
  - apply IH1 in H as (st1 & Hm1 & H). apply IH2 in H as (st2 & Hm2 & Hk).
    exists st2. split; [econstructor; eassumption|assumption].
Qed.

(** ... and whenever the reference has a match, the matcher finds one. *)
Lemma exec_complete (A : Type) (r : Re.regex) (st st' : Re.mstate) :
  Re.matches r st st' ->
  forall (k : Re.mstate -> option A) (a : A),
    k st' = Some a -> exists a', Re.exec r st k = Some a'.
Proof.
  induction 1 as [st H|st H|c s' st H|cls t s' st H Hne Hall
                 |r st st' Hm IH|r st|n r st st' Hm IH
                 |r1 r2 st st1 st2 Hm1 IH1 Hm2 IH2];
    simpl; intros k a Hk.
  - rewrite H. simpl. eauto.
  - rewrite H. eauto.
  - rewrite H, Ascii.eqb_refl. eauto.
  - rewrite H. eapply plus_loop_complete; eauto.
  - destruct (IH k a Hk) as [a' ->]. eauto.
  - destruct (Re.exec r st k); eauto.
  - eapply IH. exact Hk.
  - destruct (IH2 k a Hk) as [a2 H2]. eapply IH1. exact H2.
Qed.

Lemma re_match_sound (r : Re.regex) (s : string) (m : Re.captures) :
  Re.re_match r s = Some m ->
  exists st', Re.matches r (Re.MState 0 s []) st' /\ Re.caps st' = m.
Proof.
  unfold Re.re_match. intros H. apply exec_sound in H as (st' & Hm & Hk).
  exists st'. split; [assumption|congruence].
Qed.

Lemma re_match_complete (r : Re.regex) (s : string) (st' : Re.mstate) :
  Re.matches r (Re.MState 0 s []) st' -> exists m, Re.re_match r s = Some m.
Proof. intros H. eapply exec_complete; [exact H|reflexivity]. Qed.

(** ** The shape of a conventional commit *)

Ltac inv H := inversion H; subst; clear H.

Ltac inv_matches :=
  repeat match goal with
         | H : Re.matches (Re.Seq _ _) _ _ |- _ => inv H
         | H : Re.matches (Re.Group _ _) _ _ |- _ => inv H
         | H : Re.matches (Re.Lit _) _ _ |- _ => inv H
         | H : Re.matches (Re.Plus _) _ _ |- _ => inv H
         | H : Re.matches (Re.Opt _) _ _ |- _ => inv H
         | H : Re.matches Re.Bol _ _ |- _ => inv H
         | H : Re.matches Re.Eol _ _ |- _ => inv H
         end;
  simpl in *; subst.

Lemma take_run (t r : string) : PyStr.take (String.length t - 0) (t ++ r) = t.
Proof. rewrite Nat.sub_0_r. apply take_append. Qed.

(** A subject matching [^([a-z]+): .+$] is a type, a colon, a space, a
    description without newline and possibly a final newline. *)
Lemma plain_shape (s : string) (m : Re.captures) :
  Re.re_match CommitValidator.pattern_plain s = Some m ->
  exists t d e,
    s = t ++ ": " ++ d ++ e /\ t <> "" /\ PyStr.all PyStr.is_az t = true
    /\ d <> "" /\ PyStr.all Re.cls_dot d = true /\ Re.at_end e = true
    /\ Re.group m 1 = t.
Proof.
  intros H. apply re_match_sound in H as (st' & H & <-).
  unfold CommitValidator.pattern_plain in H. simpl in H. inv_matches.
  eexists _, _, _. repeat split; try eassumption. apply take_run.
Qed.

(** Such a subject has the shape the validator accepts without a scope. *)
Lemma plain_is_any (t d e : string) :
  t <> "" -> PyStr.all PyStr.is_az t = true ->
  d <> "" -> PyStr.all Re.cls_dot d = true -> Re.at_end e = true ->
  exists m, Re.re_match CommitValidator.pattern_any (t ++ ": " ++ d ++ e) = Some m.
Proof.
  intros Ht Haz Hd Hdot He.
  eapply re_match_complete.
  unfold CommitValidator.pattern_any. simpl.
  eapply Re.MSeq; [now apply Re.MBol|].
  eapply Re.MSeq; [apply Re.MGroup; eapply Re.MPlus; simpl; eauto|].
  eapply Re.MSeq; [apply Re.MOptNone|].
  eapply Re.MSeq; [apply Re.MLit; reflexivity|].
  eapply Re.MSeq; [apply (@Re.MPlus _ " " (d ++ e)); simpl; [reflexivity|discriminate|reflexivity]|].
  eapply Re.MSeq; [eapply Re.MPlus; simpl; eauto|].
  now apply Re.MEol.
Qed.

(** In both patterns of the validator group 1 is the leading run of the
    letters a-z of the subject, and that run is not empty. *)
Lemma type_token (require_scope : bool) (s : string) (m : Re.captures) :
  Re.re_match (CommitValidator.pattern require_scope) s = Some m ->
  Re.group m 1 = PyStr.leading PyStr.is_az s /\ PyStr.leading PyStr.is_az s <> "".
Proof.
  intros H. apply re_match_sound in H as (st' & H & <-).
  destruct require_scope; unfold CommitValidator.pattern,
    CommitValidator.pattern_scoped, CommitValidator.pattern_any in H;
    simpl in H; inv_matches;
    rewrite take_run; rewrite leading_split by (assumption || reflexivity);
    split; (reflexivity || assumption).
Qed.

Lemma type_token_az (require_scope : bool) (s : string) (m : Re.captures) :
  Re.re_match (CommitValidator.pattern require_scope) s = Some m ->
  PyStr.all PyStr.is_az (Re.group m 1) = true.
Proof.
  intros H. apply type_token in H as [-> _]. apply leading_all.
Qed.

(** ** validate_conventional_commit *)

Lemma validate_matched (message : string) (allowed_types : list string)
      (require_scope : bool) (m : Re.captures) :
  Re.re_match (CommitValidator.pattern require_scope) (PyStr.lower message) = Some m ->
  CommitValidator.validate_conventional_commit message allowed_types require_scope
  = if CommitValidator.nonempty allowed_types
       && negb (PyStr.mem (Re.group m 1) allowed_types)
    then (false, CommitValidator.type_error (Re.group m 1) allowed_types)
    else (true, "").
Proof.
  intros H. unfold CommitValidator.validate_conventional_commit. now rewrite H.
Qed.

Lemma shape_matches_true (message : string) (require_scope : bool) :
  CommitValidator.shape_matches message require_scope = true ->
  exists m, Re.re_match (CommitValidator.pattern require_scope)
                        (PyStr.lower message) = Some m.
Proof.
  unfold CommitValidator.shape_matches.
  destruct (Re.re_match _ _) as [m|]; [eauto|discriminate].
Qed.

Lemma format_error_not_type_error (require_scope : bool) (ty : string)
      (allowed_types : list string) :
  CommitValidator.format_error require_scope
  <> CommitValidator.type_error ty allowed_types.
Proof. destruct require_scope; discriminate. Qed.

Lemma az_not_upper (c : ascii) : PyStr.is_az c = true -> PyStr.is_upper c = false.
Proof. each_char c; vm_compute; congruence. Qed.

Lemma all_az_no_upper (t : string) :
  PyStr.all PyStr.is_az t = true -> PyStr.any PyStr.is_upper t = false.
Proof.
  induction t as [|c t IH]; simpl; [reflexivity|].
  intros H. apply andb_true_iff in H as [Hc Ht].
  now rewrite az_not_upper, IH.
Qed.

Lemma mem_upper_only (t : string) (allowed_types : list string) :
  PyStr.all PyStr.is_az t = true ->
  (forall a, In a allowed_types -> PyStr.any PyStr.is_upper a = true) ->
  PyStr.mem t allowed_types = false.
Proof.
  intros Ht Hall. destruct (PyStr.mem t allowed_types) eqn:E; [|reflexivity].
  apply mem_In in E. apply Hall in E. apply all_az_no_upper in Ht. congruence.
Qed.

(** C1. A commit message that matches [^[a-z]+: .+$] and whose type token
    (group 1 of that match) is in the allowed-types list is accepted when no
    scope is required: the validator returns [(True, "")]. *)
Theorem plain_commit_with_allowed_type_is_valid
        (message : string) (allowed_types : list string) (m : Re.captures) :
  Re.re_match CommitValidator.pattern_plain message = Some m ->
  PyStr.mem (Re.group m 1) allowed_types = true ->
  CommitValidator.validate_conventional_commit message allowed_types false
  = (true, "").
Proof.
  intros Hm Hin.
  apply plain_shape in Hm as (t & d & e & -> & Ht & Haz & Hd & Hdot & He & Hg).
  rewrite Hg in Hin.
  assert (Hl : PyStr.lower (t ++ ": " ++ d ++ e) = t ++ ": " ++ PyStr.lower d ++ e).
  { rewrite lower_append, (lower_az _ Haz). simpl. f_equal. f_equal. f_equal.
    rewrite lower_append. now rewrite (lower_at_end _ He). }
  destruct (plain_is_any t (PyStr.lower d) e Ht Haz) as [m' Hm'];
    [now apply lower_nonempty|now rewrite lower_dot|assumption|].
  rewrite <- Hl in Hm'.
  rewrite (validate_matched _ _ false _ Hm').
  apply (type_token false) in Hm' as [Hg' _].
  assert (Hlead : PyStr.leading PyStr.is_az (t ++ ": " ++ PyStr.lower d ++ e) = t).
  { apply (leading_split _ t (" " ++ PyStr.lower d ++ e) ":"%char);
      [assumption|reflexivity]. }
  rewrite Hg', Hl, Hlead, Hin. now rewrite andb_false_r.
Qed.

Lemma plain_commit_with_allowed_type_is_valid_witness :
  CommitValidator.validate_conventional_commit
    "feat: add x" CommitValidator.default_allowed_types false = (true, "").
Proof.
  apply (plain_commit_with_allowed_type_is_valid
           "feat: add x" CommitValidator.default_allowed_types [(1, "feat")]);
    reflexivity.
Defined.

(** C5. A commit message that fails the shape check gets one reason, the
    format error of the mode in force; that reason is never a "type not in
    allowed types" error, and the allowed-types list plays no part in the
    answer. *)
Theorem shape_failure_reports_format_error
        (message : string) (allowed_types : list string) (require_scope : bool) :
  CommitValidator.shape_matches message require_scope = false ->
  CommitValidator.validate_conventional_commit message allowed_types require_scope
  = (false, CommitValidator.format_error require_scope)
  /\ (forall ty l,
         snd (CommitValidator.validate_conventional_commit
                message allowed_types require_scope)
         <> CommitValidator.type_error ty l)
  /\ (forall other_types,
         CommitValidator.validate_conventional_commit message other_types require_scope
         = CommitValidator.validate_conventional_commit
             message allowed_types require_scope).
Proof.
  unfold CommitValidator.shape_matches, CommitValidator.validate_conventional_commit.
  destruct (Re.re_match _ _); [discriminate|]. intros _.
  repeat split. intros ty l. apply format_error_not_type_error.
Qed.

Lemma shape_failure_reports_format_error_witness :
  CommitValidator.shape_matches "oops" false = false
  /\ CommitValidator.validate_conventional_commit
       "oops" CommitValidator.default_allowed_types false
     = (false, "must match format 'type: description' or 'type(scope): description'").
Proof.
  split; [reflexivity|].
  apply (shape_failure_reports_format_error
           "oops" CommitValidator.default_allowed_types false).
  reflexivity.
Defined.

(** C6. With an empty allowed-types list every commit message whose shape
    matches is valid, whatever its type token; the same holds when the
    configuration carries [allowed_types = []]. *)
Theorem empty_allowed_types_accepts_any_type
        (message : string) (require_scope : bool) :
  CommitValidator.shape_matches message require_scope = true ->
  CommitValidator.validate_conventional_commit message [] require_scope = (true, "")
  /\ CommitValidator.validate_commits
       [message] (CommitValidator.Config (Some []) (Some require_scope)) = [].
Proof.
  intros H. apply shape_matches_true in H as [m Hm].
  assert (Hv : CommitValidator.validate_conventional_commit message [] require_scope
               = (true, "")).
  { now rewrite (validate_matched _ _ _ _ Hm). }
  split; [exact Hv|].
  unfold CommitValidator.validate_commits. simpl. now rewrite Hv.
Qed.

Lemma empty_allowed_types_accepts_any_type_witness :
  CommitValidator.validate_conventional_commit "wip(core): try y" [] true = (true, "")
  /\ CommitValidator.validate_commits
       ["wip(core): try y"] (CommitValidator.Config (Some []) (Some true)) = [].
Proof.
  apply (empty_allowed_types_accepts_any_type "wip(core): try y" true).
  reflexivity.
Defined.

(** C10. The type token is matched on the lower-cased message and consists of
    the letters a-z only, so no allowed-types entry that contains an
    upper-case letter equals it: with a (non-empty) allowed-types list made of
    such entries only, every shape-matching commit is rejected with the
    "type not in allowed types" error. *)
Theorem uppercase_allowed_types_reject_every_commit
        (message : string) (allowed_types : list string) (require_scope : bool) :
  CommitValidator.shape_matches message require_scope = true ->
  allowed_types <> [] ->
  (forall a, In a allowed_types -> PyStr.any PyStr.is_upper a = true) ->
  let commit_type := PyStr.leading PyStr.is_az (PyStr.lower message) in
  PyStr.all PyStr.is_az commit_type = true
  /\ PyStr.any PyStr.is_upper commit_type = false
  /\ CommitValidator.validate_conventional_commit message allowed_types require_scope
     = (false, CommitValidator.type_error commit_type allowed_types).
Proof.
  intros H Hne Hup commit_type.
  apply shape_matches_true in H as [m Hm].
  rewrite (validate_matched _ _ _ _ Hm).
  destruct (type_token _ _ _ Hm) as [Hg _]. rewrite Hg. fold commit_type.
  assert (Haz : PyStr.all PyStr.is_az commit_type = true) by apply leading_all.
  rewrite (mem_upper_only _ _ Haz Hup).
  destruct allowed_types as [|a l]; [congruence|]. simpl.
  repeat split; [assumption|now apply all_az_no_upper].
Qed.

Lemma uppercase_allowed_types_reject_every_commit_witness :
  CommitValidator.shape_matches "Feat: add x" false = true
  /\ CommitValidator.validate_conventional_commit "Feat: add x" ["Feat"; "FIX"] false
     = (false, "type 'feat' not in allowed types: Feat, FIX").
Proof.
  split; [reflexivity|].
  apply (uppercase_allowed_types_reject_every_commit
           "Feat: add x" ["Feat"; "FIX"] false).
  - reflexivity.
  - discriminate.
  - intros a [<-|[<-|[]]]; reflexivity.
Defined.

(** ** create_tag *)

Ltac git_unfold :=
  cbv beta iota zeta delta
      [GitTagger.create_tag GitTagger.run_git_command GitTagger.main
       GitTagger.main_body
       CommitValidator.get_commits_since_last_tag CommitValidator.run_git_command
       CommitValidator.main CommitValidator.main_body
       Host.guarded Host.bind Host.subprocess_run Host.ret Host.raise];
  cbn [Host.world Host.issued].

Ltac git_reduce := cbn [Host.world Host.issued andb negb]; cbv beta iota.

Ltac git_answer H := rewrite H; git_reduce.

(** C2. When a tag named prefix + version already exists, [create_tag]
    fails with "Tag <name> already exists"; the only git commands it issues
    are the two listings of the existence check (no tag creation, no push)
    and the world is left as it was. *)
Theorem existing_tag_is_refused
        (W : Type) (git : Host.oracle W)
        (version : string) (cfg : GitTagger.config) (project_root : string)
        (e : Host.env W) :
  let tag_name := GitTagger.tag_name_of cfg version in
  GitTagger.tag_exists git project_root tag_name (Host.world e) ->
  tag_name = Host.get (GitTagger.opt_prefix cfg) "v" ++ version
  /\ GitTagger.create_tag git version cfg project_root e
     = (Host.Ret (false, "Tag " ++ tag_name ++ " already exists"),
        Host.Env (Host.world e)
                 (Host.issued e
                    ++ [GitTagger.list_args tag_name; GitTagger.list_args tag_name])).
Proof.
  intros tag_name (out & Hl & Hout). split; [reflexivity|].
  destruct e as [w iss]. cbn [Host.world Host.issued] in *.
  git_unfold. fold tag_name.
  git_answer Hl. git_answer Hl. rewrite Hout. simpl.
  now rewrite <- app_assoc.
Qed.

Lemma existing_tag_is_refused_witness :
  let w := SimGit.Repo true ["v1.2.0"] "" true in
  GitTagger.create_tag SimGit.git "1.2.0" GitTagger.no_config "/repo" (SimGit.start w)
  = (Host.Ret (false, "Tag v1.2.0 already exists"),
     Host.Env w [["tag"; "-l"; "v1.2.0"]; ["tag"; "-l"; "v1.2.0"]]).
Proof.
  intros w.
  apply (existing_tag_is_refused
           _ SimGit.git "1.2.0" GitTagger.no_config "/repo" (SimGit.start w)).
  exists "v1.2.0". split; reflexivity.
Defined.

(** The part of [create_tag] after an existence check that found nothing. *)
Lemma create_tag_when_absent
      (W : Type) (git : Host.oracle W)
      (version : string) (cfg : GitTagger.config) (project_root : string)
      (w : W) (iss : list (list string)) (r2 : Host.proc_result) (w2 : W) :
  let tag_name := GitTagger.tag_name_of cfg version in
  let iss2 := (iss ++ GitTagger.check_args git project_root tag_name w
                   ++ [GitTagger.tag_args_of cfg version])%list in
  GitTagger.tag_absent git project_root tag_name w ->
  git (GitTagger.tag_args_of cfg version) project_root w = (r2, w2) ->
  GitTagger.create_tag git version cfg project_root (Host.Env w iss)
  = match r2 with
    | Host.Exit0 _ =>
        if Host.get (GitTagger.opt_push cfg) false then
          match git (GitTagger.push_args tag_name) project_root w2 with
          | (Host.Exit0 _, w3) =>
              (Host.Ret (true, "Created and pushed tag " ++ tag_name),
               Host.Env w3 (iss2 ++ [GitTagger.push_args tag_name]))
          | (Host.ExitNonzero err, w3) =>
              (Host.Ret (false, "Tag created but failed to push: " ++ PyStr.strip err),
               Host.Env w3 (iss2 ++ [GitTagger.push_args tag_name]))
          | (Host.OsError d, w3) =>
              (Host.Raise d, Host.Env w3 (iss2 ++ [GitTagger.push_args tag_name]))
          end
        else (Host.Ret (true, "Created tag " ++ tag_name), Host.Env w2 iss2)
    | Host.ExitNonzero err =>
        (Host.Ret (false, "Failed to create tag: " ++ PyStr.strip err),
         Host.Env w2 iss2)
    | Host.OsError d => (Host.Raise d, Host.Env w2 iss2)
    end.
Proof.
  intros tag_name iss2 Habs Hc. subst iss2.
  unfold GitTagger.check_args.
  destruct Habs as [(out & Hl & Hout)|(err & Hl)];
    git_unfold; fold tag_name; git_answer Hl;
    [git_answer Hl; rewrite Hout; git_reduce|];
    git_answer Hc; rewrite <- !app_assoc; cbn [app];
    (destruct r2; git_reduce; try reflexivity);
    (destruct (Host.get (GitTagger.opt_push cfg) false); git_reduce;
     [|reflexivity]);
    (destruct (git (GitTagger.push_args tag_name) project_root w2) as [[o3|e3|d3] w3]);
    git_reduce; rewrite <- ?app_assoc; reflexivity.
Qed.

(** C3. The tag is not there, the creating command succeeds, push is
    requested and the push command fails: [create_tag] reports failure with
    "Tag created but failed to push: <stderr of the push>".  It issues no git
    command after the push, so the world it leaves is the one the push
    attempt left: whatever holds of the freshly tagged world and survives a
    failed push (the tag exists locally) holds afterwards. *)
Theorem failed_push_leaves_the_tag
        (W : Type) (git : Host.oracle W)
        (version : string) (cfg : GitTagger.config) (project_root : string)
        (e : Host.env W) (out : string) (w2 : W) (err : string) (w3 : W) :
  let tag_name := GitTagger.tag_name_of cfg version in
  GitTagger.tag_absent git project_root tag_name (Host.world e) ->
  git (GitTagger.tag_args_of cfg version) project_root (Host.world e)
  = (Host.Exit0 out, w2) ->
  Host.get (GitTagger.opt_push cfg) false = true ->
  git (GitTagger.push_args tag_name) project_root w2 = (Host.ExitNonzero err, w3) ->
  GitTagger.create_tag git version cfg project_root e
  = (Host.Ret (false, "Tag created but failed to push: " ++ PyStr.strip err),
     Host.Env w3
       (Host.issued e
          ++ GitTagger.check_args git project_root tag_name (Host.world e)
          ++ [GitTagger.tag_args_of cfg version; GitTagger.push_args tag_name]))
  /\ (forall tag_is_local : W -> Prop,
         tag_is_local w2 ->
         (tag_is_local w2 -> tag_is_local w3) ->
         tag_is_local
           (Host.world (snd (GitTagger.create_tag git version cfg project_root e)))).
Proof.
  intros tag_name Habs Hc Hp Hpush. destruct e as [w iss].
  cbn [Host.world Host.issued] in *.
  rewrite (create_tag_when_absent _ git version cfg project_root w iss _ _ Habs Hc).
  fold tag_name. rewrite Hp, Hpush. rewrite <- !app_assoc. cbn [app].
  split; [reflexivity|]. intros P H2 H23. simpl. auto.
Qed.

Lemma failed_push_leaves_the_tag_witness :
  let w := SimGit.Repo true [] "" false in
  let cfg := GitTagger.Config None None None None (Some true) in
  let r := GitTagger.create_tag SimGit.git "1.2.0" cfg "/repo" (SimGit.start w) in
  fst r = Host.Ret (false, "Tag created but failed to push: fatal: unable to access remote")
  /\ In "v1.2.0" (SimGit.tags (Host.world (snd r))).
Proof.
  intros w cfg r.
  destruct (failed_push_leaves_the_tag
              _ SimGit.git "1.2.0" cfg "/repo" (SimGit.start w)
              "" (SimGit.add_tag "v1.2.0" w)
              "fatal: unable to access remote" (SimGit.add_tag "v1.2.0" w))
    as [Hr Hkeep].
  - left. exists "". split; reflexivity.
  - reflexivity.
  - reflexivity.
  - reflexivity.
  - split.
    + subst r. rewrite Hr. reflexivity.
    + apply (Hkeep (fun w' => In "v1.2.0" (SimGit.tags w'))).
      * simpl. auto.
      * auto.
Defined.

(** C8. The tag name is prefix + version with "v" as the default prefix.
    When the tag is not there and the creating command succeeds,
    [create_tag] returns "Created tag <name>" if push is not requested and
    "Created and pushed tag <name>" if push is requested and the push
    succeeds; and whenever [create_tag] returns success, under any git, its
    message is the one of these two that the push option selects. *)
Theorem created_tag_messages
        (W : Type) (git : Host.oracle W)
        (version : string) (cfg : GitTagger.config) (project_root : string)
        (e : Host.env W) :
  let tag_name := GitTagger.tag_name_of cfg version in
  let push := Host.get (GitTagger.opt_push cfg) false in
  tag_name = Host.get (GitTagger.opt_prefix cfg) "v" ++ version
  /\ (forall out w2,
         GitTagger.tag_absent git project_root tag_name (Host.world e) ->
         git (GitTagger.tag_args_of cfg version) project_root (Host.world e)
         = (Host.Exit0 out, w2) ->
         push = false ->
         fst (GitTagger.create_tag git version cfg project_root e)
         = Host.Ret (true, "Created tag " ++ tag_name))
  /\ (forall out w2 out' w3,
         GitTagger.tag_absent git project_root tag_name (Host.world e) ->
         git (GitTagger.tag_args_of cfg version) project_root (Host.world e)
         = (Host.Exit0 out, w2) ->
         push = true ->
         git (GitTagger.push_args tag_name) project_root w2 = (Host.Exit0 out', w3) ->
         fst (GitTagger.create_tag git version cfg project_root e)
         = Host.Ret (true, "Created and pushed tag " ++ tag_name))
  /\ (forall msg e',
         GitTagger.create_tag git version cfg project_root e
         = (Host.Ret (true, msg), e') ->
         msg = (if push then "Created and pushed tag " else "Created tag ")
                 ++ tag_name).
Proof.
  intros tag_name push. destruct e as [w iss]. cbn [Host.world Host.issued].
  split; [reflexivity|]. split; [|split].
  - intros out w2 Habs Hc Hp.
    rewrite (create_tag_when_absent _ git version cfg project_root w iss _ _ Habs Hc).
    fold push. now rewrite Hp.
  - intros out w2 out' w3 Habs Hc Hp Hpush.
    rewrite (create_tag_when_absent _ git version cfg project_root w iss _ _ Habs Hc).
    fold push tag_name. now rewrite Hp, Hpush.
  - intros msg e'. git_unfold. fold tag_name push.
    destruct (git (GitTagger.list_args tag_name) project_root w) as [[o1|e1|d1] w1];
      git_reduce; try discriminate;
      [destruct (git (GitTagger.list_args tag_name) project_root w1)
        as [[o1'|e1'|d1'] w1']; git_reduce; try discriminate;
       [destruct (PyStr.truthy (PyStr.strip o1')); git_reduce; try discriminate|]
      |];
      match goal with
      | |- context [git (GitTagger.tag_args_of cfg version) project_root ?x] =>
          destruct (git (GitTagger.tag_args_of cfg version) project_root x)
            as [[o2|e2|d2] w2]
      end; git_reduce; try discriminate;
      (destruct push; git_reduce; [|intros [= <- _]; reflexivity]);
      match goal with
      | |- context [git (GitTagger.push_args tag_name) project_root ?x] =>
          destruct (git (GitTagger.push_args tag_name) project_root x)
            as [[o3|e3|d3] w3]
      end; git_reduce; try discriminate; intros [= <- _]; reflexivity.
Qed.

Lemma created_tag_messages_witness :
  let w := SimGit.Repo true [] "" true in
  let cfg := GitTagger.Config (Some "release-") None None None (Some true) in
  fst (GitTagger.create_tag SimGit.git "1.2.0" cfg "/repo" (SimGit.start w))
  = Host.Ret (true, "Created and pushed tag release-1.2.0").
Proof.
  intros w cfg.
  apply (proj1 (proj2 (proj2
           (created_tag_messages _ SimGit.git "1.2.0" cfg "/repo" (SimGit.start w))))
           "" (SimGit.add_tag "release-1.2.0" w) "" (SimGit.add_tag "release-1.2.0" w)).
  - left. exists "". split; reflexivity.
  - reflexivity.
  - reflexivity.
  - reflexivity.
Defined.

(** ** The two [main]s *)

(** [main] of the validator once the history reader has answered. *)
Lemma validator_main_after_reader
      (W : Type) (git : Host.oracle W) (c : ascii) (root : string)
      (cfg : option CommitValidator.config) (e e' : Host.env W)
      (success : bool) (commits : list string) :
  CommitValidator.get_commits_since_last_tag git (String c root) e
  = (Host.Ret (success, commits), e') ->
  CommitValidator.main git
    (Host.Doc (CommitValidator.Request (Some (String c root)) cfg)) e
  = (if negb success then
       (Host.Response false
          "Failed to retrieve git commits. Ensure you are in a git repository." [],
        1)
     else if negb (CommitValidator.nonempty commits) then
       (Host.Response true "No commits to validate"
          [("commits_checked", Host.JInt 0)], 0)
     else
       let invalid_commits :=
         CommitValidator.validate_commits
           commits (Host.get cfg CommitValidator.no_config) in
       if CommitValidator.nonempty invalid_commits then
         (Host.Response false
            ("Found " ++ PyStr.of_nat (length invalid_commits)
               ++ " invalid commit(s):" ++ String PyStr.newline ""
               ++ PyStr.join (String PyStr.newline "")
                    (map CommitValidator.error_detail invalid_commits))
            [("commits_checked", Host.JInt (length commits));
             ("invalid_count", Host.JInt (length invalid_commits));
             ("invalid_commits",
              Host.JArr (map CommitValidator.invalid_json_item invalid_commits))],
          1)
       else
         (Host.Response true
            ("All " ++ PyStr.of_nat (length commits)
               ++ " commit(s) follow conventional commit format")
            [("commits_checked", Host.JInt (length commits));
             ("invalid_count", Host.JInt 0)], 0),
     e').
Proof.
  intros H.
  unfold CommitValidator.main, Host.guarded, CommitValidator.main_body.
  cbn [CommitValidator.project_root CommitValidator.req_config PyStr.truthy negb].
  unfold Host.bind at 1. rewrite H.
  destruct success; cbn [negb]; [|reflexivity].
  destruct (negb (CommitValidator.nonempty commits)); [reflexivity|].
  cbv zeta.
  destruct (CommitValidator.nonempty
              (CommitValidator.validate_commits
                 commits (Host.get cfg CommitValidator.no_config)));
    reflexivity.
Qed.

(** The history reader when the git log exits with an error. *)
Lemma reader_log_failure
      (W : Type) (git : Host.oracle W) (root : string) (e e1 : Host.env W)
      (success : bool) (last_tag err : string) (w2 : W) :
  CommitValidator.run_git_command git CommitValidator.describe_args root e
  = (Host.Ret (success, last_tag), e1) ->
  git (CommitValidator.log_args success last_tag) root (Host.world e1)
  = (Host.ExitNonzero err, w2) ->
  CommitValidator.get_commits_since_last_tag git root e
  = (Host.Ret (false, []),
     Host.Env w2 (Host.issued e1 ++ [CommitValidator.log_args success last_tag])).
Proof.
  intros Hd Hlog.
  unfold CommitValidator.get_commits_since_last_tag.
  unfold Host.bind at 1. rewrite Hd.
  git_unfold. now rewrite Hlog.
Qed.

(** C4 as the code has it.  For a non-empty project_root on which the git log
    of the history reader exits with an error, the validator hook answers
    with a failure whose message is "Failed to retrieve git commits. Ensure
    you are in a git repository.", empty data and exit status 1. *)
Theorem log_failure_is_reported
        (W : Type) (git : Host.oracle W) (c : ascii) (root : string)
        (cfg : option CommitValidator.config) (e e1 : Host.env W)
        (success : bool) (last_tag err : string) (w2 : W) :
  let project_root := String c root in
  CommitValidator.run_git_command git CommitValidator.describe_args project_root e
  = (Host.Ret (success, last_tag), e1) ->
  git (CommitValidator.log_args success last_tag) project_root (Host.world e1)
  = (Host.ExitNonzero err, w2) ->
  fst (CommitValidator.main git
         (Host.Doc (CommitValidator.Request (Some project_root) cfg)) e)
  = (Host.Response false
       "Failed to retrieve git commits. Ensure you are in a git repository." [],
     1).
Proof.
  intros project_root Hd Hlog. subst project_root.
  rewrite (validator_main_after_reader _ git c root cfg e _ false []
             (reader_log_failure _ git _ e e1 _ _ _ _ Hd Hlog)).
  reflexivity.
Qed.

Lemma log_failure_is_reported_witness :
  fst (CommitValidator.main SimGit.git
         (Host.Doc (CommitValidator.Request (Some "/tmp/not-a-repo") None))
         (SimGit.start (SimGit.Repo false [] "" true)))
  = (Host.Response false
       "Failed to retrieve git commits. Ensure you are in a git repository." [],
     1).
Proof.
  apply (log_failure_is_reported
           _ SimGit.git "/"%char "tmp/not-a-repo" None
           (SimGit.start (SimGit.Repo false [] "" true))
           (Host.Env (SimGit.Repo false [] "" true) [CommitValidator.describe_args])
           false "fatal: not a git repository" "fatal: not a git repository"
           (SimGit.Repo false [] "" true));
    reflexivity.
Defined.

(** C4 as the specification words it does not hold: on a directory that is
    not a repository the git log fails and the message of the response is
    not "Failed to retrieve commit history." *)
Lemma log_failure_message_differs :
  ~ (forall (W : Type) (git : Host.oracle W) (c : ascii) (root : string)
            (cfg : option CommitValidator.config) (e e1 : Host.env W)
            (success : bool) (last_tag err : string) (w2 : W),
        CommitValidator.run_git_command git CommitValidator.describe_args
          (String c root) e
        = (Host.Ret (success, last_tag), e1) ->
        git (CommitValidator.log_args success last_tag) (String c root)
            (Host.world e1)
        = (Host.ExitNonzero err, w2) ->
        let r := fst (fst (CommitValidator.main git
                        (Host.Doc (CommitValidator.Request (Some (String c root)) cfg))
                        e)) in
        Host.success r = false
        /\ Host.message r = "Failed to retrieve commit history.").
Proof.
  intros H.
  destruct (H _ SimGit.git "/"%char "tmp/not-a-repo" None
              (SimGit.start (SimGit.Repo false [] "" true))
              (Host.Env (SimGit.Repo false [] "" true) [CommitValidator.describe_args])
              false "fatal: not a git repository" "fatal: not a git repository"
              (SimGit.Repo false [] "" true) eq_refl eq_refl) as [_ Hm].
  vm_compute in Hm. discriminate Hm.
Qed.

(** C7. When the history reader succeeds with no commits the validator hook
    answers success with data [{"commits_checked": 0}] and exit status 0; a
    non-empty history whose commits are all valid also succeeds, but with a
    different response: its data carries the number of commits (at least 1)
    and ["invalid_count": 0]. *)
Theorem empty_history_is_a_distinct_success
        (W : Type) (git : Host.oracle W) (c : ascii) (root : string)
        (cfg : option CommitValidator.config) (e e' : Host.env W) :
  let request := Host.Doc (CommitValidator.Request (Some (String c root)) cfg) in
  let nothing := Host.Response true "No commits to validate"
                               [("commits_checked", Host.JInt 0)] in
  CommitValidator.get_commits_since_last_tag git (String c root) e
  = (Host.Ret (true, []), e') ->
  CommitValidator.main git request e = ((nothing, 0), e')
  /\ (forall (e2 e2' : Host.env W) (commits : list string),
         commits <> [] ->
         CommitValidator.get_commits_since_last_tag git (String c root) e2
         = (Host.Ret (true, commits), e2') ->
         CommitValidator.validate_commits commits (Host.get cfg CommitValidator.no_config)
         = [] ->
         let r := fst (fst (CommitValidator.main git request e2)) in
         Host.success r = true
         /\ Host.data r = [("commits_checked", Host.JInt (length commits));
                           ("invalid_count", Host.JInt 0)]
         /\ 0 < length commits
         /\ r <> nothing).
Proof.
  intros request nothing H. subst request. split.
  - now rewrite (validator_main_after_reader _ git c root cfg e e' true [] H).
  - intros e2 e2' commits Hne H2 Hvalid.
    rewrite (validator_main_after_reader _ git c root cfg e2 e2' true commits H2).
    destruct commits as [|x l]; [congruence|].
    cbn [negb CommitValidator.nonempty]. cbv zeta. rewrite Hvalid.
    cbn [CommitValidator.nonempty fst Host.success Host.data].
    repeat split; [simpl; lia|]. subst nothing. intros [= _ Hlen]. 
Qed.

Lemma empty_history_is_a_distinct_success_witness :
  let w := SimGit.Repo true ["v1.0.0"] "" true in
  let request := Host.Doc (CommitValidator.Request (Some "/repo") None) in
  fst (CommitValidator.main SimGit.git request (SimGit.start w))
  = (Host.Response true "No commits to validate" [("commits_checked", Host.JInt 0)], 0).
Proof.
  intros w request.
  destruct (empty_history_is_a_distinct_success
              _ SimGit.git "/"%char "repo" None (SimGit.start w)
              (Host.Env w [CommitValidator.describe_args;
                           CommitValidator.log_args true "v1.0.0"])
              eq_refl) as [H _].
  subst request. now rewrite H.
Defined.

(** C9. A required field that is present with the empty string as its value
    is reported as missing, with exit status 1, and no git command is run:
    project_root for the validator; version, and project_root once version
    is non-empty, for the tagger. *)
Theorem empty_required_field_is_missing
        (W : Type) (git : Host.oracle W) (e : Host.env W) :
  (forall cfg,
      CommitValidator.main git
        (Host.Doc (CommitValidator.Request (Some "") cfg)) e
      = ((Host.Response false "Missing required field: project_root" [], 1), e))
  /\ (forall project_root cfg,
         GitTagger.main git
           (Host.Doc (GitTagger.Request (Some "") project_root cfg)) e
         = ((Host.Response false "Missing required field: version" [], 1), e))
  /\ (forall c version cfg,
         GitTagger.main git
           (Host.Doc (GitTagger.Request (Some (String c version)) (Some "") cfg)) e
         = ((Host.Response false "Missing required field: project_root" [], 1), e)).
Proof. repeat split. Qed.

(** ** The scenarios of the specification, run on the stand-in *)

(** Scenario A: one invalid commit out of two. *)
Example scenario_invalid_commit :
  fst (CommitValidator.main SimGit.git
         (Host.Doc (CommitValidator.Request (Some "/repo") (Some CommitValidator.no_config)))
         (SimGit.start (SimGit.Repo true [] ("feat: add x" ++ String PyStr.newline "oops") true)))
  = (Host.Response false
       ("Found 1 invalid commit(s):" ++ String PyStr.newline
          "  - oops... -> must match format 'type: description' or 'type(scope): description'")
       [("commits_checked", Host.JInt 2);
        ("invalid_count", Host.JInt 1);
        ("invalid_commits",
         Host.JArr [Host.JObj
                      [("message", Host.JStr "oops");
                       ("error",
                        Host.JStr "must match format 'type: description' or 'type(scope): description'")]])],
     1).
Proof. vm_compute. reflexivity. Qed.

(** Creating the same tag twice: success, then the refusal, with the tags
    untouched by the second call. *)
Example scenario_second_call_is_refused :
  let w := SimGit.Repo true [] "" true in
  let first := GitTagger.create_tag SimGit.git "1.2.0" GitTagger.no_config "/repo"
                                    (SimGit.start w) in
  let second := GitTagger.create_tag SimGit.git "1.2.0" GitTagger.no_config "/repo"
                                     (snd first) in
  fst first = Host.Ret (true, "Created tag v1.2.0")
  /\ fst second = Host.Ret (false, "Tag v1.2.0 already exists")
  /\ Host.world (snd second) = Host.world (snd first).
Proof. vm_compute. repeat split. Qed.

(** A signed annotated tag: the argument vector handed to git. *)
Example scenario_signed_tag_args :
  GitTagger.tag_args_of
    (GitTagger.Config None None (Some true) (Some "Version {version} is out") None)
    "2.0.0"
  = ["tag"; "-a"; "v2.0.0"; "-m"; "Version 2.0.0 is out"; "-s"].
Proof. reflexivity. Qed.

(** The matcher on a few subjects. *)
Example scenario_shapes :
  CommitValidator.shape_matches "fix(api-2): handle: colons" true = true
  /\ CommitValidator.shape_matches "fix: handle" true = false
  /\ CommitValidator.shape_matches "FIX: handle" false = true
  /\ CommitValidator.shape_matches "fix:handle" false = false
  /\ CommitValidator.shape_matches "fix: " false = false.
Proof. vm_compute. repeat split. Qed.

(* ================================================================== *)
(** * Further properties of the validator *)

Lemma append_inv_head (t a b : string) : t ++ a = t ++ b -> a = b.
Proof. induction t as [|c t IH]; simpl; intros H; [assumption|]. injection H. auto. Qed.

Lemma lower_char_idem (c : ascii) :
  PyStr.lower_char (PyStr.lower_char c) = PyStr.lower_char c.
Proof. each_char c; reflexivity. Qed.

Lemma lower_idem (s : string) : PyStr.lower (PyStr.lower s) = PyStr.lower s.
Proof. induction s as [|c s IH]; simpl; [reflexivity|]. now rewrite lower_char_idem, IH. Qed.

Lemma shape_matches_false (message : string) (require_scope : bool) :
  CommitValidator.shape_matches message require_scope = false ->
  Re.re_match (CommitValidator.pattern require_scope) (PyStr.lower message) = None.
Proof.
  unfold CommitValidator.shape_matches.
  destruct (Re.re_match _ _); [discriminate|reflexivity].
Qed.

(** The verdict in terms of the shape check and the leading letters. *)
Lemma validate_by_shape
      (message : string) (allowed_types : list string) (require_scope : bool) :
  CommitValidator.validate_conventional_commit message allowed_types require_scope
  = if CommitValidator.shape_matches message require_scope then
      if CommitValidator.nonempty allowed_types
         && negb (PyStr.mem (PyStr.leading PyStr.is_az (PyStr.lower message))
                            allowed_types)
      then (false,
            CommitValidator.type_error
              (PyStr.leading PyStr.is_az (PyStr.lower message)) allowed_types)
      else (true, "")
    else (false, CommitValidator.format_error require_scope).
Proof.
  destruct (CommitValidator.shape_matches message require_scope) eqn:E.
  - apply shape_matches_true in E as [m Hm].
    rewrite (validate_matched _ _ _ _ Hm).
    destruct (type_token _ _ _ Hm) as [-> _]. reflexivity.
  - apply shape_matches_false in E.
    unfold CommitValidator.validate_conventional_commit. now rewrite E.
Qed.

(** X1. The verdict without the regular expression: the type the validator
    checks and quotes is the leading run of the letters a-z of the
    lower-cased message (so a colon further right plays no part), which is
    not empty when the shape matches; the three outcomes are the format error
    when the shape fails, the type error when the list is non-empty and lacks
    that type, and valid otherwise. *)
Theorem validate_by_leading_type
        (message : string) (allowed_types : list string) (require_scope : bool) :
  let commit_type := PyStr.leading PyStr.is_az (PyStr.lower message) in
  CommitValidator.validate_conventional_commit message allowed_types require_scope
  = (if CommitValidator.shape_matches message require_scope then
       if CommitValidator.nonempty allowed_types
          && negb (PyStr.mem commit_type allowed_types)
       then (false, CommitValidator.type_error commit_type allowed_types)
       else (true, "")
     else (false, CommitValidator.format_error require_scope))
  /\ (CommitValidator.shape_matches message require_scope = true ->
      commit_type <> "" /\ PyStr.all PyStr.is_az commit_type = true).
Proof.
  intros commit_type. split; [apply validate_by_shape|].
  intros H. apply shape_matches_true in H as [m Hm].
  destruct (type_token _ _ _ Hm) as [_ Hne].
  split; [exact Hne|apply leading_all].
Qed.

Lemma validate_by_leading_type_witness :
  PyStr.leading PyStr.is_az (PyStr.lower "Fix: a: b") <> ""
  /\ PyStr.all PyStr.is_az (PyStr.leading PyStr.is_az (PyStr.lower "Fix: a: b")) = true.
Proof.
  apply (proj2 (validate_by_leading_type "Fix: a: b" [] false)). reflexivity.
Defined.

(** X2. Validation is case-insensitive in the message: a message and its
    lower-cased form get the same verdict and the same error text. *)
Theorem validate_ignores_case
        (message : string) (allowed_types : list string) (require_scope : bool) :
  CommitValidator.validate_conventional_commit
    (PyStr.lower message) allowed_types require_scope
  = CommitValidator.validate_conventional_commit message allowed_types require_scope.
Proof.
  unfold CommitValidator.validate_conventional_commit. now rewrite lower_idem.
Qed.

(** The shape of a message the scoped pattern matches. *)
Lemma scoped_shape (s : string) (m : Re.captures) :
  Re.re_match CommitValidator.pattern_scoped s = Some m ->
  exists t x ws d e,
    s = t ++ "(" ++ x ++ "):" ++ ws ++ d ++ e
    /\ t <> "" /\ PyStr.all PyStr.is_az t = true
    /\ x <> "" /\ PyStr.all Re.cls_scope x = true
    /\ ws <> "" /\ PyStr.all PyStr.is_space ws = true
    /\ d <> "" /\ PyStr.all Re.cls_dot d = true /\ Re.at_end e = true.
Proof.
  intros H. apply re_match_sound in H as (st' & H & <-).
  unfold CommitValidator.pattern_scoped in H. simpl in H. inv_matches.
  eexists _, _, _, _, _. repeat split; eassumption.
Qed.

Lemma scoped_built (t x ws d e : string) :
  t <> "" -> PyStr.all PyStr.is_az t = true ->
  x <> "" -> PyStr.all Re.cls_scope x = true ->
  ws <> "" -> PyStr.all PyStr.is_space ws = true ->
  d <> "" -> PyStr.all Re.cls_dot d = true -> Re.at_end e = true ->
  forall require_scope, exists m,
    Re.re_match (CommitValidator.pattern require_scope)
                (t ++ "(" ++ x ++ "):" ++ ws ++ d ++ e) = Some m.
Proof.
  intros Ht Haz Hx Hsc Hws Hsp Hd Hdot He require_scope.
  destruct require_scope; eapply re_match_complete;
    unfold CommitValidator.pattern, CommitValidator.pattern_scoped,
      CommitValidator.pattern_any; simpl.
  - eapply Re.MSeq; [now apply Re.MBol|].
    eapply Re.MSeq; [apply Re.MGroup; eapply Re.MPlus; simpl; eauto|].
    eapply Re.MSeq; [apply Re.MLit; reflexivity|].
    eapply Re.MSeq; [apply Re.MGroup; eapply Re.MPlus; simpl; eauto|].
    eapply Re.MSeq; [apply Re.MLit; reflexivity|].
    eapply Re.MSeq; [apply Re.MLit; reflexivity|].
    eapply Re.MSeq; [eapply Re.MPlus; simpl; eauto|].
    eapply Re.MSeq; [eapply Re.MPlus; simpl; eauto|].
    now apply Re.MEol.
  - eapply Re.MSeq; [now apply Re.MBol|].
    eapply Re.MSeq; [apply Re.MGroup; eapply Re.MPlus; simpl; eauto|].
    eapply Re.MSeq.
    { apply Re.MOptSome. apply Re.MGroup.
      eapply Re.MSeq; [apply Re.MLit; reflexivity|].
      eapply Re.MSeq; [eapply Re.MPlus; simpl; eauto|].
      apply Re.MLit; reflexivity. }
    eapply Re.MSeq; [apply Re.MLit; reflexivity|].
    eapply Re.MSeq; [eapply Re.MPlus; simpl; eauto|].
    eapply Re.MSeq; [eapply Re.MPlus; simpl; eauto|].
    now apply Re.MEol.
Qed.

Lemma unscoped_built (t ws d e : string) :
  t <> "" -> PyStr.all PyStr.is_az t = true ->
  ws <> "" -> PyStr.all PyStr.is_space ws = true ->
  d <> "" -> PyStr.all Re.cls_dot d = true -> Re.at_end e = true ->
  exists m, Re.re_match CommitValidator.pattern_any (t ++ ":" ++ ws ++ d ++ e) = Some m.
Proof.
  intros Ht Haz Hws Hsp Hd Hdot He.
  eapply re_match_complete.
  unfold CommitValidator.pattern_any. simpl.
  eapply Re.MSeq; [now apply Re.MBol|].
  eapply Re.MSeq; [apply Re.MGroup; eapply Re.MPlus; simpl; eauto|].
  eapply Re.MSeq; [apply Re.MOptNone|].
  eapply Re.MSeq; [apply Re.MLit; reflexivity|].
  eapply Re.MSeq; [eapply Re.MPlus; simpl; eauto|].
  eapply Re.MSeq; [eapply Re.MPlus; simpl; eauto|].
  now apply Re.MEol.
Qed.

Lemma scope_assoc (t x r : string) :
  t ++ ("(" ++ x ++ ")") ++ ":" ++ r = t ++ "(" ++ x ++ "):" ++ r.
Proof. simpl. f_equal. f_equal. now rewrite append_assoc. Qed.

Lemma any_shape (s : string) (m : Re.captures) :
  Re.re_match CommitValidator.pattern_any s = Some m ->
  exists t sc ws d e,
    s = t ++ sc ++ ":" ++ ws ++ d ++ e
    /\ t <> "" /\ PyStr.all PyStr.is_az t = true
    /\ (sc = "" \/ exists x, x <> "" /\ PyStr.all Re.cls_scope x = true
                             /\ sc = "(" ++ x ++ ")")
    /\ ws <> "" /\ PyStr.all PyStr.is_space ws = true
    /\ d <> "" /\ PyStr.all Re.cls_dot d = true /\ Re.at_end e = true.
Proof.
  intros H. apply re_match_sound in H as (st' & H & <-).
  unfold CommitValidator.pattern_any in H. simpl in H. inv_matches.
  - match goal with
    | |- exists _ _ _ _ _,
          ?t ++ String _ (?x ++ String _ (String _ (?ws ++ ?d ++ ?e))) = _ /\ _ =>
        exists t, ("(" ++ x ++ ")"), ws, d, e
    end.
    split; [symmetry; apply scope_assoc|].
    repeat split; try assumption. right. eexists. repeat split; assumption.
  - match goal with
    | |- exists _ _ _ _ _, ?t ++ String _ (?ws ++ ?d ++ ?e) = _ /\ _ =>
        exists t, "", ws, d, e
    end.
    repeat split; try assumption. now left.
Qed.

(** X3. The grammar the shape check accepts, on the lower-cased message: a
    non-empty run of a-z; then a parenthesised non-empty scope of a-z, 0-9 and
    hyphen, which may be left out only when no scope is required; a colon; at
    least one whitespace character; at least one character that is not a
    newline; and at most one final newline. *)
Theorem shape_grammar (message : string) (require_scope : bool) :
  CommitValidator.shape_matches message require_scope = true
  <->
  exists t sc ws d e,
    PyStr.lower message = t ++ sc ++ ":" ++ ws ++ d ++ e
    /\ t <> "" /\ PyStr.all PyStr.is_az t = true
    /\ ((require_scope = false /\ sc = "")
        \/ exists x, x <> "" /\ PyStr.all Re.cls_scope x = true
                     /\ sc = "(" ++ x ++ ")")
    /\ ws <> "" /\ PyStr.all PyStr.is_space ws = true
    /\ d <> "" /\ PyStr.all Re.cls_dot d = true /\ Re.at_end e = true.
Proof.
  split.
  - intros H. apply shape_matches_true in H as [m Hm].
    destruct require_scope; cbn [CommitValidator.pattern] in Hm.
    + apply scoped_shape in Hm
        as (t & x & ws & d & e & Hs & Ht & Haz & Hx & Hsc & Hws & Hsp & Hd & Hdot & He).
      exists t, ("(" ++ x ++ ")"), ws, d, e. rewrite Hs.
      split; [symmetry; apply scope_assoc|].
      repeat split; try assumption. right. exists x. repeat split; assumption.
    + apply any_shape in Hm
        as (t & sc & ws & d & e & Hs & Ht & Haz & Hsc & Hws & Hsp & Hd & Hdot & He).
      exists t, sc, ws, d, e. repeat split; try assumption.
      destruct Hsc as [->|Hx]; [left; split; reflexivity|right; exact Hx].
  - intros (t & sc & ws & d & e & Hs & Ht & Haz & Hsc & Hws & Hsp & Hd & Hdot & He).
    unfold CommitValidator.shape_matches. rewrite Hs.
    destruct Hsc as [[-> ->]|(x & Hx & Hxs & ->)].
    + destruct (unscoped_built t ws d e) as [m Hm]; auto.
      change (t ++ "" ++ ":" ++ ws ++ d ++ e) with (t ++ ":" ++ ws ++ d ++ e).
      change (CommitValidator.pattern false) with CommitValidator.pattern_any.
      now rewrite Hm.
    + destruct (scoped_built t x ws d e Ht Haz Hx Hxs Hws Hsp Hd Hdot He require_scope)
        as [m Hm].
      rewrite scope_assoc. now rewrite Hm.
Qed.

Lemma shape_grammar_witness :
  exists t sc ws d e,
    PyStr.lower "Fix(API-2): handle: colons" = t ++ sc ++ ":" ++ ws ++ d ++ e
    /\ t <> "" /\ PyStr.all PyStr.is_az t = true
    /\ ((true = false /\ sc = "")
        \/ exists x, x <> "" /\ PyStr.all Re.cls_scope x = true
                     /\ sc = "(" ++ x ++ ")")
    /\ ws <> "" /\ PyStr.all PyStr.is_space ws = true
    /\ d <> "" /\ PyStr.all Re.cls_dot d = true /\ Re.at_end e = true.
Proof.
  apply (proj1 (shape_grammar "Fix(API-2): handle: colons" true)). reflexivity.
Defined.

(** X4. A message the scoped pattern accepts is accepted without the scope
    requirement too, with the same verdict: requiring a scope only ever
    turns a verdict into the format error. *)
Theorem scoped_commit_same_verdict
        (message : string) (allowed_types : list string) :
  CommitValidator.shape_matches message true = true ->
  CommitValidator.shape_matches message false = true
  /\ CommitValidator.validate_conventional_commit message allowed_types false
     = CommitValidator.validate_conventional_commit message allowed_types true.
Proof.
  intros H.
  assert (H' : CommitValidator.shape_matches message false = true).
  { pose proof H as G. apply shape_matches_true in G as [m Hm].
    cbn [CommitValidator.pattern] in Hm.
    apply scoped_shape in Hm
      as (t & x & ws & d & e & Hs & Ht & Haz & Hx & Hsc & Hws & Hsp & Hd & Hdot & He).
    destruct (scoped_built t x ws d e Ht Haz Hx Hsc Hws Hsp Hd Hdot He false)
      as [m' Hm'].
    unfold CommitValidator.shape_matches. rewrite Hs. now rewrite Hm'. }
  split; [exact H'|].
  rewrite !validate_by_shape. now rewrite H, H'.
Qed.

Lemma scoped_commit_same_verdict_witness :
  CommitValidator.shape_matches "feat(ui): add x" false = true
  /\ CommitValidator.validate_conventional_commit "feat(ui): add x" ["fix"] false
     = CommitValidator.validate_conventional_commit "feat(ui): add x" ["fix"] true.
Proof.
  apply (scoped_commit_same_verdict "feat(ui): add x" ["fix"]). reflexivity.
Defined.

(** X5. When a scope is required, a message of the plain form
    [type: description] is rejected with the scoped-format error whatever
    its type and whatever the allowed-types list. *)
Theorem plain_commit_rejected_when_scope_required
        (message : string) (allowed_types : list string) (m : Re.captures) :
  Re.re_match CommitValidator.pattern_plain message = Some m ->
  CommitValidator.validate_conventional_commit message allowed_types true
  = (false, "must match format 'type(scope): description'").
Proof.
  intros Hm.
  apply plain_shape in Hm as (t & d & e & -> & Ht & Haz & Hd & Hdot & He & _).
  rewrite validate_by_shape.
  destruct (CommitValidator.shape_matches (t ++ ": " ++ d ++ e) true) eqn:E;
    [|reflexivity].
  exfalso. apply shape_matches_true in E as [m' Hm'].
  cbn [CommitValidator.pattern] in Hm'.
  apply scoped_shape in Hm' as (t' & x & ws & d' & e' & Hs & _ & Haz' & _).
  rewrite lower_append, (lower_az _ Haz) in Hs.
  assert (Hl : PyStr.leading PyStr.is_az (t ++ PyStr.lower (": " ++ d ++ e)) = t)
    by (apply (leading_split _ t _ ":"%char); [assumption|reflexivity]).
  assert (Hl' : PyStr.leading PyStr.is_az (t' ++ "(" ++ x ++ "):" ++ ws ++ d' ++ e') = t')
    by (apply (leading_split _ t' _ "("%char); [assumption|reflexivity]).
  rewrite Hs, Hl' in Hl. subst t'.
  apply append_inv_head in Hs. discriminate Hs.
Qed.

Lemma plain_commit_rejected_when_scope_required_witness :
  CommitValidator.validate_conventional_commit "feat: add x" [] true
  = (false, "must match format 'type(scope): description'").
Proof.
  apply (plain_commit_rejected_when_scope_required "feat: add x" [] [(1, "feat")]).
  reflexivity.
Defined.

(** X6. A config without the allowed_types key does not mean any type: the
    eleven default types apply, and a shape-matching commit whose type is not
    one of them is reported with the type error that lists them. *)
Theorem absent_allowed_types_means_defaults
        (message : string) (require_scope : option bool) :
  let scope := Host.get require_scope false in
  let commit_type := PyStr.leading PyStr.is_az (PyStr.lower message) in
  CommitValidator.shape_matches message scope = true ->
  PyStr.mem commit_type CommitValidator.default_allowed_types = false ->
  CommitValidator.validate_commits
    [message] (CommitValidator.Config None require_scope)
  = [(message,
      "type '" ++ commit_type
        ++ "' not in allowed types: feat, fix, docs, style, refactor, perf, test, build, ci, chore, revert")].
Proof.
  intros scope commit_type Hs Hm.
  unfold CommitValidator.validate_commits.
  cbn [CommitValidator.opt_allowed_types CommitValidator.opt_require_scope
       Host.get flat_map].
  fold scope. rewrite validate_by_shape. fold commit_type.
  rewrite Hs, Hm. reflexivity.
Qed.

Lemma absent_allowed_types_means_defaults_witness :
  CommitValidator.validate_commits ["wip: try y"] (CommitValidator.Config None None)
  = [("wip: try y",
      "type 'wip' not in allowed types: feat, fix, docs, style, refactor, perf, test, build, ci, chore, revert")].
Proof.
  apply (absent_allowed_types_means_defaults "wip: try y" None); reflexivity.
Defined.

Lemma validate_commits_filter
      (commits : list string) (cfg : CommitValidator.config) :
  CommitValidator.validate_commits commits cfg
  = map (fun commit =>
           (commit,
            snd (CommitValidator.validate_conventional_commit
                   commit
                   (Host.get (CommitValidator.opt_allowed_types cfg)
                             CommitValidator.default_allowed_types)
                   (Host.get (CommitValidator.opt_require_scope cfg) false))))
        (filter (fun commit =>
                   negb (fst (CommitValidator.validate_conventional_commit
                                commit
                                (Host.get (CommitValidator.opt_allowed_types cfg)
                                          CommitValidator.default_allowed_types)
                                (Host.get (CommitValidator.opt_require_scope cfg)
                                          false))))
                commits).
Proof.
  unfold CommitValidator.validate_commits.
  induction commits as [|c l IH]; [reflexivity|].
  cbn [flat_map filter]. rewrite IH.
  destruct (CommitValidator.validate_conventional_commit c _ _)
    as [[|] err] eqn:V; cbn [fst snd negb map app]; [reflexivity|].
  now rewrite V.
Qed.

(** X7. The invalid_commits list holds exactly the commits the validator
    rejects, in the order of the history and once per occurrence, each with
    the validator's reason for it; it is never longer than the history. *)
Theorem validate_commits_lists_the_rejected
        (commits : list string) (cfg : CommitValidator.config) :
  let allowed_types :=
    Host.get (CommitValidator.opt_allowed_types cfg)
             CommitValidator.default_allowed_types in
  let require_scope := Host.get (CommitValidator.opt_require_scope cfg) false in
  let verdict commit :=
    CommitValidator.validate_conventional_commit commit allowed_types require_scope in
  CommitValidator.validate_commits commits cfg
  = map (fun commit => (commit, snd (verdict commit)))
        (filter (fun commit => negb (fst (verdict commit))) commits)
  /\ length (CommitValidator.validate_commits commits cfg) <= length commits.
Proof.
  intros allowed_types require_scope verdict.
  split; [apply validate_commits_filter|].
  rewrite validate_commits_filter, length_map. apply filter_length_le.
Qed.

(* ================================================================== *)
(** * Further properties of the history reader *)

Lemma lstrip_head (s : string) :
  PyStr.lstrip s = "" \/
  exists c s', PyStr.lstrip s = String c s' /\ PyStr.is_space c = false.
Proof.
  induction s as [|c s IH]; simpl; [now left|].
  destruct (PyStr.is_space c) eqn:E; [exact IH|]. right. eauto.
Qed.

Lemma rstrip_idem (s : string) : PyStr.rstrip (PyStr.rstrip s) = PyStr.rstrip s.
Proof.
  induction s as [|c s IH]; simpl; [reflexivity|].
  destruct (PyStr.rstrip s) as [|a r] eqn:E.
  - destruct (PyStr.is_space c) eqn:Ec; simpl; [reflexivity|now rewrite Ec].
  - transitivity (match PyStr.rstrip (String a r) with
                  | "" => if PyStr.is_space c then "" else String c ""
                  | r0 => String c r0
                  end); [reflexivity|now rewrite IH].
Qed.

Lemma rstrip_keeps_head (c : ascii) (s : string) :
  PyStr.is_space c = false ->
  exists r, PyStr.rstrip (String c s) = String c r.
Proof.
  intros Hc. simpl. destruct (PyStr.rstrip s); [rewrite Hc|]; eauto.
Qed.

Lemma strip_idem (s : string) : PyStr.strip (PyStr.strip s) = PyStr.strip s.
Proof.
  unfold PyStr.strip.
  destruct (lstrip_head s) as [->|(c & s' & -> & Hc)]; [reflexivity|].
  destruct (rstrip_keeps_head c s' Hc) as [r Hr].
  assert (Hl : PyStr.lstrip (PyStr.rstrip (String c s')) = PyStr.rstrip (String c s'))
    by (rewrite Hr; simpl; now rewrite Hc).
  rewrite Hl. apply rstrip_idem.
Qed.

Lemma all_lstrip cls (s : string) :
  PyStr.all cls s = true -> PyStr.all cls (PyStr.lstrip s) = true.
Proof.
  induction s as [|c s IH]; simpl; [reflexivity|].
  intros H. destruct (PyStr.is_space c); [|assumption].
  apply andb_true_iff in H as [_ H]. auto.
Qed.

Lemma all_rstrip cls (s : string) :
  PyStr.all cls s = true -> PyStr.all cls (PyStr.rstrip s) = true.
Proof.
  induction s as [|c s IH]; simpl; [reflexivity|].
  intros H. apply andb_true_iff in H as [Hc H]. specialize (IH H).
  destruct (PyStr.rstrip s) as [|a r].
  - destruct (PyStr.is_space c); simpl; [reflexivity|now rewrite Hc].
  - simpl in *. now rewrite Hc, IH.
Qed.

Lemma split_lines_no_newline (s : string) :
  Forall (fun l => PyStr.all Re.cls_dot l = true) (PyStr.split_lines s).
Proof.
  induction s as [|c s IH]; cbn [PyStr.split_lines]; [repeat constructor|].
  destruct (Ascii.eqb c PyStr.newline) eqn:E.
  - constructor; [reflexivity|exact IH].
  - assert (Hc : Re.cls_dot c = true) by (unfold Re.cls_dot; now rewrite E).
    destruct (PyStr.split_lines s) as [|l ls].
    + repeat constructor. cbn [PyStr.all]. now rewrite Hc.
    + inversion IH; subst. constructor; [|assumption].
      cbn [PyStr.all]. now rewrite Hc.
Qed.

(** The list comprehension of the reader. *)
Lemma reader_lines_clean (out : string) :
  Forall (fun c => c <> "" /\ PyStr.strip c = c /\ PyStr.all Re.cls_dot c = true)
         (map PyStr.strip
              (filter (fun c => PyStr.truthy (PyStr.strip c))
                      (PyStr.split_lines out))).
Proof.
  apply Forall_map, Forall_forall. intros l Hl.
  apply filter_In in Hl as [Hin Ht].
  repeat split.
  - intros E. now rewrite E in Ht.
  - apply strip_idem.
  - unfold PyStr.strip. apply all_rstrip, all_lstrip.
    pose proof (split_lines_no_newline out) as H.
    rewrite Forall_forall in H. auto.
Qed.

(** Every way the reader can end. *)
Lemma reader_outcomes
      (W : Type) (git : Host.oracle W) (root : string) (e : Host.env W) :
  (exists d e', CommitValidator.get_commits_since_last_tag git root e
                = (Host.Raise d, e'))
  \/ (exists e', CommitValidator.get_commits_since_last_tag git root e
                 = (Host.Ret (false, []), e'))
  \/ (exists out e',
         CommitValidator.get_commits_since_last_tag git root e
         = (Host.Ret (true,
                      map PyStr.strip
                          (filter (fun c => PyStr.truthy (PyStr.strip c))
                                  (PyStr.split_lines out))), e')).
Proof.
  destruct e as [w iss]. git_unfold.
  destruct (git CommitValidator.describe_args root w) as [[o1|e1|d1] w1];
    git_reduce; [| |left; eauto];
    match goal with
    | |- context [git ?a root w1] => destruct (git a root w1) as [[o2|e2|d2] w2]
    end; git_reduce; eauto 6.
Qed.

(** X8. Whatever git prints, the commits the reader returns are clean
    subject lines: none is empty, none has leading or trailing whitespace
    and none contains a newline. *)
Theorem reader_returns_clean_lines
        (W : Type) (git : Host.oracle W) (root : string) (e e' : Host.env W)
        (success : bool) (commits : list string) :
  CommitValidator.get_commits_since_last_tag git root e
  = (Host.Ret (success, commits), e') ->
  Forall (fun c => c <> "" /\ PyStr.strip c = c /\ PyStr.all Re.cls_dot c = true)
         commits.
Proof.
  intros H.
  destruct (reader_outcomes W git root e)
    as [(d & e1 & H1)|[(e1 & H1)|(out & e1 & H1)]];
    rewrite H1 in H; [discriminate| |]; injection H as _ <- _.
  - constructor.
  - apply reader_lines_clean.
Qed.

Lemma reader_returns_clean_lines_witness :
  Forall (fun c => c <> "" /\ PyStr.strip c = c /\ PyStr.all Re.cls_dot c = true)
         ["feat: add x"; "fix: y"].
Proof.
  pose (w := SimGit.Repo true [] ("  feat: add x  " ++ String PyStr.newline
                                    ("   " ++ String PyStr.newline "fix: y")) true).
  apply (reader_returns_clean_lines
           _ SimGit.git "/repo" (SimGit.start w)
           (Host.Env w [CommitValidator.describe_args;
                        CommitValidator.log_args false "fatal: No names found"])
           true ["feat: add x"; "fix: y"]).
  reflexivity.
Defined.

(** X9. Which history is read.  When git describe names a tag, the log is
    taken over the range from that tag (its name stripped) to HEAD; when
    describe fails or prints nothing the failure is not an error and the
    whole history is listed.  In both cases a log that exits with 0 makes
    the reader succeed with the non-blank lines of its output, and exactly
    these two commands are issued. *)
Theorem reader_log_range
        (W : Type) (git : Host.oracle W) (root : string) (e : Host.env W)
        (r1 : Host.proc_result) (w1 w2 : W) (out : string) :
  let log :=
    match r1 with
    | Host.Exit0 tag =>
        if PyStr.truthy (PyStr.strip tag)
        then ["log"; PyStr.strip tag ++ "..HEAD"; "--pretty=format:%s"]
        else ["log"; "--pretty=format:%s"]
    | _ => ["log"; "--pretty=format:%s"]
    end in
  (forall d, r1 <> Host.OsError d) ->
  git CommitValidator.describe_args root (Host.world e) = (r1, w1) ->
  git log root w1 = (Host.Exit0 out, w2) ->
  CommitValidator.get_commits_since_last_tag git root e
  = (Host.Ret (true,
               map PyStr.strip
                   (filter (fun c => PyStr.truthy (PyStr.strip c))
                           (PyStr.split_lines (PyStr.strip out)))),
     Host.Env w2 (Host.issued e ++ [CommitValidator.describe_args; log])).
Proof.
  intros log Hos Hd Hl. destruct e as [w iss]. cbn [Host.world Host.issued] in *.
  git_unfold. git_answer Hd.
  destruct r1 as [tag|err|d]; [| |now destruct (Hos d)]; git_reduce;
    unfold CommitValidator.log_args; cbn [andb];
    [destruct (PyStr.truthy (PyStr.strip tag))|];
    subst log; cbv beta iota in Hl; git_answer Hl; now rewrite <- app_assoc.
Qed.

Lemma reader_log_range_witness :
  let w := SimGit.Repo true ["v1.0.0"] "fix: y" true in
  CommitValidator.get_commits_since_last_tag SimGit.git "/repo" (SimGit.start w)
  = (Host.Ret (true, ["fix: y"]),
     Host.Env w [["describe"; "--tags"; "--abbrev=0"];
                 ["log"; "v1.0.0..HEAD"; "--pretty=format:%s"]]).
Proof.
  intros w.
  apply (reader_log_range _ SimGit.git "/repo" (SimGit.start w)
                          (Host.Exit0 "v1.0.0") w w "fix: y").
  - discriminate.
  - reflexivity.
  - reflexivity.
Defined.

(* ================================================================== *)
(** * Further properties of the validator's main *)

Lemma filter_none (A : Type) (f : A -> bool) (l : list A) :
  (forall y, In y l -> f y = false) -> filter f l = [].
Proof.
  induction l as [|x l IH]; simpl; intros H; [reflexivity|].
  rewrite (H x) by auto. auto.
Qed.

Lemma nonempty_false (A : Type) (l : list A) :
  CommitValidator.nonempty l = false <-> l = [].
Proof. destruct l; simpl; split; congruence. Qed.

(** X10. Once the reader has succeeded, the hook succeeds exactly when the
    validator accepts every commit of the history under the configured
    options (absent keys taking their defaults). *)
Theorem validator_succeeds_iff_all_valid
        (W : Type) (git : Host.oracle W) (c : ascii) (root : string)
        (cfg : option CommitValidator.config) (e e' : Host.env W)
        (commits : list string) :
  let config := Host.get cfg CommitValidator.no_config in
  let allowed_types :=
    Host.get (CommitValidator.opt_allowed_types config)
             CommitValidator.default_allowed_types in
  let require_scope := Host.get (CommitValidator.opt_require_scope config) false in
  CommitValidator.get_commits_since_last_tag git (String c root) e
  = (Host.Ret (true, commits), e') ->
  Host.success
    (fst (fst (CommitValidator.main git
                 (Host.Doc (CommitValidator.Request (Some (String c root)) cfg)) e)))
  = true
  <-> (forall commit,
          In commit commits ->
          fst (CommitValidator.validate_conventional_commit
                 commit allowed_types require_scope) = true).
Proof.
  intros config allowed_types require_scope H.
  rewrite (validator_main_after_reader _ git c root cfg e e' true commits H).
  cbn [negb fst]. cbv zeta. fold config.
  pose proof (validate_commits_filter commits config) as E.
  fold allowed_types require_scope in E.
  destruct commits as [|x l].
  - simpl. split; [intros _ ? []|reflexivity].
  - cbn [CommitValidator.nonempty negb].
    destruct (CommitValidator.nonempty
                (CommitValidator.validate_commits (x :: l) config)) eqn:N;
      cbn [Host.success fst]; split; try reflexivity; try discriminate.
    + intros Hall. exfalso.
      assert (Hnil : CommitValidator.validate_commits (x :: l) config = []).
      { rewrite E.
        rewrite filter_none; [reflexivity|].
        intros y Hy. now rewrite (Hall y Hy). }
      rewrite Hnil in N. discriminate.
    + intros _ commit Hin. apply nonempty_false in N.
      rewrite E in N. apply map_eq_nil in N.
      destruct (fst (CommitValidator.validate_conventional_commit
                       commit allowed_types require_scope)) eqn:V; [reflexivity|].
      exfalso.
      assert (Hf : In commit
                      (filter (fun commit0 =>
                                 negb (fst (CommitValidator.validate_conventional_commit
                                              commit0 allowed_types require_scope)))
                              (x :: l)))
        by (apply filter_In; split; [assumption|now rewrite V]).
      rewrite N in Hf. destruct Hf.
Qed.

Lemma validator_succeeds_iff_all_valid_witness :
  let w := SimGit.Repo true [] "feat: add x" true in
  Host.success
    (fst (fst (CommitValidator.main SimGit.git
                 (Host.Doc (CommitValidator.Request (Some "/repo") None))
                 (SimGit.start w))))
  = true.
Proof.
  intros w.
  apply (proj2 (validator_succeeds_iff_all_valid
                  _ SimGit.git "/"%char "repo" None (SimGit.start w)
                  (Host.Env w [CommitValidator.describe_args;
                               CommitValidator.log_args false "fatal: No names found"])
                  ["feat: add x"] eq_refl)).
  intros commit [<-|[]]. reflexivity.
Defined.


(** The commands the reader issues, with each way it can end. *)
Lemma reader_issues
      (W : Type) (git : Host.oracle W) (root : string) (e : Host.env W) :
  exists o e' l,
    CommitValidator.get_commits_since_last_tag git root e = (o, e')
    /\ Host.issued e' = (Host.issued e ++ l)%list
    /\ (l = [CommitValidator.describe_args]
        \/ exists success last_tag,
            l = [CommitValidator.describe_args;
                 CommitValidator.log_args success last_tag]).
Proof.
  destruct e as [w iss]. git_unfold.
  destruct (git CommitValidator.describe_args root w) as [[o1|e1|d1] w1];
    git_reduce;
    [| |eexists _, _, [CommitValidator.describe_args]; repeat split; auto];
    match goal with
    | |- context [git (CommitValidator.log_args ?s ?t) root w1] =>
        destruct (git (CommitValidator.log_args s t) root w1) as [[o2|e2|d2] w2];
        git_reduce;
        eexists _, _, [CommitValidator.describe_args; CommitValidator.log_args s t];
        (split; [reflexivity|]);
        (split; [cbn [Host.issued]; now rewrite <- app_assoc|eauto])
    end.
Qed.

Lemma validator_main_raise
      (W : Type) (git : Host.oracle W) (c : ascii) (root : string)
      (cfg : option CommitValidator.config) (e e' : Host.env W) (d : string) :
  CommitValidator.get_commits_since_last_tag git (String c root) e
  = (Host.Raise d, e') ->
  CommitValidator.main git
    (Host.Doc (CommitValidator.Request (Some (String c root)) cfg)) e
  = ((Host.Response false ("Unexpected error: " ++ d) [], 1), e').
Proof.
  intros H.
  unfold CommitValidator.main, Host.guarded, CommitValidator.main_body.
  cbn [CommitValidator.project_root CommitValidator.req_config PyStr.truthy negb].
  unfold Host.bind at 1. now rewrite H.
Qed.

(** Every way the validator's main can end. *)
Lemma validator_main_outcomes
      (W : Type) (git : Host.oracle W)
      (stdin : Host.stdin_doc CommitValidator.request) (e : Host.env W) :
  let result := CommitValidator.main git stdin e in
  let response := fst (fst result) in
  let status := snd (fst result) in
  (Host.success response = true /\ status = 0
   \/ Host.success response = false /\ status = 1
      /\ exists c msg, Host.message response = String c msg)
  /\ exists l,
       Host.issued (snd result) = (Host.issued e ++ l)%list
       /\ (l = [] \/ l = [CommitValidator.describe_args]
           \/ exists success last_tag,
               l = [CommitValidator.describe_args;
                    CommitValidator.log_args success last_tag]).
Proof.
  cbv zeta.
  destruct stdin as [detail|[[[|c root]|] cfg]];
    try (split; [right; repeat split; simpl; eauto
                |exists []; rewrite app_nil_r; split; [reflexivity|now left]]).
  destruct (reader_issues W git (String c root) e) as (o & e' & l & Hr & Hl & Hcase).
  assert (Hiss : exists l0,
             Host.issued e' = (Host.issued e ++ l0)%list
             /\ (l0 = [] \/ l0 = [CommitValidator.describe_args]
                 \/ exists success last_tag,
                     l0 = [CommitValidator.describe_args;
                           CommitValidator.log_args success last_tag]))
    by (exists l; tauto).
  destruct o as [[success commits]|d].
  - rewrite (validator_main_after_reader _ git c root cfg e e' success commits Hr).
    split; [|exact Hiss].
    destruct success; cbn [negb fst snd];
      [|right; repeat split; simpl; eauto].
    destruct (negb (CommitValidator.nonempty commits)); [left; split; reflexivity|].
    cbv zeta.
    destruct (CommitValidator.nonempty
                (CommitValidator.validate_commits
                   commits (Host.get cfg CommitValidator.no_config)));
      [right; repeat split; cbn [Host.message fst]; eexists _, _; reflexivity
      |left; split; reflexivity].
  - rewrite (validator_main_raise _ git c root cfg e e' d Hr).
    split; [right; repeat split; simpl; eauto|exact Hiss].
Qed.
(** X11. The response contract of the validator hook, for every input and
    every behaviour of git: the exit status is 0 or 1, it is 0 exactly when
    success is true, and a failure always carries a non-empty message. *)
Theorem validator_response_contract
        (W : Type) (git : Host.oracle W)
        (stdin : Host.stdin_doc CommitValidator.request) (e : Host.env W) :
  let response := fst (fst (CommitValidator.main git stdin e)) in
  let status := snd (fst (CommitValidator.main git stdin e)) in
  (status = 0 <-> Host.success response = true)
  /\ (status = 0 \/ status = 1)
  /\ (Host.success response = false -> Host.message response <> "").
Proof.
  intros response status.
  destruct (validator_main_outcomes W git stdin e) as [H _]. cbv zeta in H.
  destruct H as [[Hs Hc]|(Hs & Hc & ch & msg & Hm)].
  - split; [split; intros _; [exact Hs|exact Hc]|]. split; [left; exact Hc|].
    intros Hf. unfold response in Hf. rewrite Hs in Hf. discriminate.
  - split.
    + split; intros H0.
      * unfold status in H0. rewrite Hc in H0. discriminate.
      * unfold response in H0. rewrite Hs in H0. discriminate.
    + split; [right; exact Hc|]. intros _. unfold response. rewrite Hm. discriminate.
Qed.

Lemma validator_response_contract_witness :
  Host.message
    (fst (fst (CommitValidator.main SimGit.git
                 (Host.Doc (CommitValidator.Request (Some "/tmp/x") None))
                 (SimGit.start (SimGit.Repo false [] "" true)))))
  <> "".
Proof.
  apply (proj2 (proj2 (validator_response_contract
                         _ SimGit.git
                         (Host.Doc (CommitValidator.Request (Some "/tmp/x") None))
                         (SimGit.start (SimGit.Repo false [] "" true))))).
  reflexivity.
Defined.




(* ================================================================== *)
(** * Further properties of the tagger *)

(** Every way [create_tag] can end, with the commands it has issued. *)
Lemma create_tag_outcomes
      (W : Type) (git : Host.oracle W)
      (version : string) (cfg : GitTagger.config) (project_root : string)
      (e : Host.env W) :
  let tag_name := GitTagger.tag_name_of cfg version in
  let push := Host.get (GitTagger.opt_push cfg) false in
  exists o e' l,
    GitTagger.create_tag git version cfg project_root e = (o, e')
    /\ Host.issued e' = (Host.issued e ++ l)%list
    /\ length l <= 4
    /\ Forall (fun args =>
                 args = GitTagger.list_args tag_name
                 \/ args = GitTagger.tag_args_of cfg version
                 \/ (push = true /\ args = GitTagger.push_args tag_name)) l
    /\ match o with
       | Host.Raise _ => True
       | Host.Ret (true, msg) =>
           msg = (if push then "Created and pushed tag " else "Created tag ")
                   ++ tag_name
       | Host.Ret (false, msg) =>
           msg = "Tag " ++ tag_name ++ " already exists"
           \/ exists err, msg = "Failed to create tag: " ++ err
                          \/ msg = "Tag created but failed to push: " ++ err
       end.
Proof.
  intros tag_name push. destruct e as [w iss]. git_unfold. fold tag_name push.
  pose (Q := fun o : Host.outcome (bool * string) =>
               match o with
               | Host.Raise _ => True
               | Host.Ret (true, msg) =>
                   msg = (if push then "Created and pushed tag " else "Created tag ")
                           ++ tag_name
               | Host.Ret (false, msg) =>
                   msg = "Tag " ++ tag_name ++ " already exists"
                   \/ exists err, msg = "Failed to create tag: " ++ err
                                  \/ msg = "Tag created but failed to push: " ++ err
               end).
  pose (R := fun args : list string =>
               args = GitTagger.list_args tag_name
               \/ args = GitTagger.tag_args_of cfg version
               \/ (push = true /\ args = GitTagger.push_args tag_name)).
  match goal with
  | |- exists o e' l, ?X = _ /\ _ =>
      change (exists o e' l,
                 X = (o, e') /\ Host.issued e' = (iss ++ l)%list /\ length l <= 4
                 /\ Forall R l /\ Q o)
  end.
  assert (Hl : forall l (o : Host.outcome (bool * string)) (w' : W),
             Forall R l -> length l <= 4 -> Q o ->
             exists o0 e' l0,
               (o, Host.Env w' (iss ++ l)%list) = (o0, e')
               /\ Host.issued e' = (iss ++ l0)%list
               /\ length l0 <= 4 /\ Forall R l0 /\ Q o0).
  { intros l o w' HF Hlen HQ. exists o, (Host.Env w' (iss ++ l)%list), l.
    repeat split; assumption. }
  destruct (git (GitTagger.list_args tag_name) project_root w) as [[o1|e1|d1] w1];
    git_reduce;
    [destruct (git (GitTagger.list_args tag_name) project_root w1)
      as [[o1'|e1'|d1'] w1']; git_reduce;
     [destruct (PyStr.truthy (PyStr.strip o1')); git_reduce| |]
    | |];
    try match goal with
        | |- context [git (GitTagger.tag_args_of cfg version) project_root ?x] =>
            destruct (git (GitTagger.tag_args_of cfg version) project_root x)
              as [[o2|e2|d2] w2]; git_reduce;
            [destruct push eqn:Hp; git_reduce;
             [match goal with
              | |- context [git (GitTagger.push_args tag_name) project_root ?y] =>
                  destruct (git (GitTagger.push_args tag_name) project_root y)
                    as [[o3|e3|d3] w3]; git_reduce
              end|]
            | |]
        end;
    rewrite <- ?app_assoc; cbn [app];
    match goal with
    | |- exists o e' l, (_, Host.Env _ (iss ++ ?l0)%list) = _ /\ _ =>
        apply (Hl l0);
        [unfold R;
         repeat (apply Forall_cons;
                 [first [left; reflexivity
                        |right; left; reflexivity
                        |right; right; split; reflexivity]|]);
         apply Forall_nil
        |simpl; lia|unfold Q; eauto]
    end.
Qed.

(** X14. [create_tag] issues at most four git commands, each of them the
    listing of the tag name, the creating [git tag] or the push of that tag,
    and it pushes only when the push option is set: nothing is deleted,
    nothing else is pushed. *)
Theorem create_tag_commands
        (W : Type) (git : Host.oracle W)
        (version : string) (cfg : GitTagger.config) (project_root : string)
        (e : Host.env W) :
  let tag_name := GitTagger.tag_name_of cfg version in
  exists l,
    Host.issued (snd (GitTagger.create_tag git version cfg project_root e))
    = (Host.issued e ++ l)%list
    /\ length l <= 4
    /\ Forall (fun args =>
                 args = GitTagger.list_args tag_name
                 \/ args = GitTagger.tag_args_of cfg version
                 \/ (Host.get (GitTagger.opt_push cfg) false = true
                     /\ args = GitTagger.push_args tag_name)) l.
Proof.
  intros tag_name.
  destruct (create_tag_outcomes W git version cfg project_root e)
    as (o & e' & l & Hc & Hi & Hlen & HF & _).
  exists l. rewrite Hc. cbn [snd]. auto.
Qed.

(** X15. When the creating command fails, [create_tag] reports "Failed to
    create tag: <stderr of git>" and stops: no push is attempted even when
    the push option is set. *)
Theorem failed_creation_skips_push
        (W : Type) (git : Host.oracle W)
        (version : string) (cfg : GitTagger.config) (project_root : string)
        (e : Host.env W) (err : string) (w2 : W) :
  let tag_name := GitTagger.tag_name_of cfg version in
  GitTagger.tag_absent git project_root tag_name (Host.world e) ->
  git (GitTagger.tag_args_of cfg version) project_root (Host.world e)
  = (Host.ExitNonzero err, w2) ->
  GitTagger.create_tag git version cfg project_root e
  = (Host.Ret (false, "Failed to create tag: " ++ PyStr.strip err),
     Host.Env w2
       (Host.issued e
          ++ GitTagger.check_args git project_root tag_name (Host.world e)
          ++ [GitTagger.tag_args_of cfg version])).
Proof.
  intros tag_name Habs Hc. destruct e as [w iss].
  cbn [Host.world Host.issued] in *.
  now rewrite (create_tag_when_absent _ git version cfg project_root w iss _ _ Habs Hc).
Qed.

Lemma failed_creation_skips_push_witness :
  let w := SimGit.Repo false [] "" true in
  let cfg := GitTagger.Config None None None None (Some true) in
  GitTagger.create_tag SimGit.git "1.2.0" cfg "/tmp/x" (SimGit.start w)
  = (Host.Ret (false, "Failed to create tag: fatal: not a git repository"),
     Host.Env w [["tag"; "-l"; "v1.2.0"];
                 ["tag"; "-a"; "v1.2.0"; "-m"; "Release 1.2.0"]]).
Proof.
  intros w cfg.
  apply (failed_creation_skips_push
           _ SimGit.git "1.2.0" cfg "/tmp/x" (SimGit.start w)
           "fatal: not a git repository" w).
  - right. exists "fatal: not a git repository". reflexivity.
  - reflexivity.
Defined.

(** The tagger's main once both required fields are there. *)
Lemma tagger_main_after_create
      (W : Type) (git : Host.oracle W) (c : ascii) (version : string)
      (c' : ascii) (root : string) (cfg : option GitTagger.config)
      (e e' : Host.env W) (o : Host.outcome (bool * string)) :
  GitTagger.create_tag git (String c version)
                       (Host.get cfg GitTagger.no_config) (String c' root) e
  = (o, e') ->
  GitTagger.main git
    (Host.Doc (GitTagger.Request (Some (String c version)) (Some (String c' root)) cfg))
    e
  = (match o with
     | Host.Ret (success, message) =>
         (Host.Response success message [], if success then 0 else 1)
     | Host.Raise d => (Host.Response false ("Unexpected error: " ++ d) [], 1)
     end, e').
Proof.
  intros H.
  unfold GitTagger.main, Host.guarded, GitTagger.main_body.
  cbn [GitTagger.version GitTagger.project_root GitTagger.req_config
       PyStr.truthy negb].
  unfold Host.bind at 1. rewrite H. destruct o as [[s m]|d]; reflexivity.
Qed.

(** X16. The response contract of the tagger hook, for every input and every
    behaviour of git: data is always empty, the exit status is 0 or 1 and is
    0 exactly when success is true, and a failure always carries a non-empty
    message. *)
Theorem tagger_response_contract
        (W : Type) (git : Host.oracle W)
        (stdin : Host.stdin_doc GitTagger.request) (e : Host.env W) :
  let response := fst (fst (GitTagger.main git stdin e)) in
  let status := snd (fst (GitTagger.main git stdin e)) in
  Host.data response = []
  /\ (status = 0 <-> Host.success response = true)
  /\ (status = 0 \/ status = 1)
  /\ (Host.success response = false -> Host.message response <> "").
Proof.
  cbv zeta.
  destruct stdin as [detail|[[[|c version]|] [[|c' root]|] cfg]];
    try (cbn; repeat split; auto; discriminate).
  destruct (create_tag_outcomes W git (String c version)
              (Host.get cfg GitTagger.no_config) (String c' root) e)
    as (o & e' & l & Hc & _ & _ & _ & HQ).
  rewrite (tagger_main_after_create _ git c version c' root cfg e e' o Hc).
  destruct o as [[[|] m]|d]; cbn [fst snd Host.data Host.success Host.message];
    repeat split; auto; try discriminate.
  intros _. destruct HQ as [-> | (err & [-> | ->])]; discriminate.
Qed.

Lemma tagger_response_contract_witness :
  Host.message
    (fst (fst (GitTagger.main SimGit.git
                 (Host.Doc (GitTagger.Request (Some "1.2.0") (Some "/repo") None))
                 (SimGit.start (SimGit.Repo true ["v1.2.0"] "" true)))))
  <> "".
Proof.
  apply (proj2 (proj2 (proj2
           (tagger_response_contract
              _ SimGit.git
              (Host.Doc (GitTagger.Request (Some "1.2.0") (Some "/repo") None))
              (SimGit.start (SimGit.Repo true ["v1.2.0"] "" true)))))).
  reflexivity.
Defined.

(** X17. An OSError raised while git is launched reaches the outer handler
    of the tagger: the response is "Unexpected error: <detail>" with exit
    status 1. *)
Theorem tagger_reports_os_error
        (W : Type) (git : Host.oracle W) (c : ascii) (version : string)
        (c' : ascii) (root : string) (cfg : option GitTagger.config)
        (e : Host.env W) (detail : string) (w1 : W) :
  let tag_name :=
    GitTagger.tag_name_of (Host.get cfg GitTagger.no_config) (String c version) in
  git (GitTagger.list_args tag_name) (String c' root) (Host.world e)
  = (Host.OsError detail, w1) ->
  fst (GitTagger.main git
         (Host.Doc (GitTagger.Request (Some (String c version))
                                      (Some (String c' root)) cfg)) e)
  = (Host.Response false ("Unexpected error: " ++ detail) [], 1).
Proof.
  intros tag_name H. destruct e as [w iss]. cbn [Host.world] in H.
  rewrite (tagger_main_after_create _ git c version c' root cfg _
             (Host.Env w1 (iss ++ [GitTagger.list_args tag_name]))
             (Host.Raise detail)); [reflexivity|].
  git_unfold. fold tag_name. now rewrite H.
Qed.

Lemma tagger_reports_os_error_witness :
  let no_git : Host.oracle unit :=
    fun _ _ w => (Host.OsError "[Errno 2] No such file or directory: 'git'", w) in
  fst (GitTagger.main no_git
         (Host.Doc (GitTagger.Request (Some "1.2.0") (Some "/repo") None))
         (Host.Env tt []))
  = (Host.Response false
       "Unexpected error: [Errno 2] No such file or directory: 'git'" [], 1).
Proof.
  intros no_git.
  apply (tagger_reports_os_error
           unit no_git "1"%char ".2.0" "/"%char "repo" None (Host.Env tt [])
           "[Errno 2] No such file or directory: 'git'" tt).
  reflexivity.
Defined.

(* ================================================================== *)
(** * Request guard, annotation message, composition, preview *)

(** X18. A required field that is absent or empty stops the hook before git
    is run, with exit status 1 and a message that names it: project_root for
    the validator; for the tagger version first, and project_root only when
    version is there. *)
Theorem missing_field_guard
        (W : Type) (git : Host.oracle W) (e : Host.env W) :
  (forall root cfg,
      Host.get root "" = "" ->
      CommitValidator.main git (Host.Doc (CommitValidator.Request root cfg)) e
      = ((Host.Response false "Missing required field: project_root" [], 1), e))
  /\ (forall version root cfg,
         Host.get version "" = "" ->
         GitTagger.main git (Host.Doc (GitTagger.Request version root cfg)) e
         = ((Host.Response false "Missing required field: version" [], 1), e))
  /\ (forall version root cfg,
         Host.get version "" <> "" ->
         Host.get root "" = "" ->
         GitTagger.main git (Host.Doc (GitTagger.Request version root cfg)) e
         = ((Host.Response false "Missing required field: project_root" [], 1), e)).
Proof.
  split; [|split].
  - intros [[|c root]|] cfg H; try discriminate; reflexivity.
  - intros [[|c version]|] root cfg H; try discriminate; reflexivity.
  - intros [[|c version]|] [[|c' root]|] cfg Hv H;
      try discriminate; try (now destruct Hv); reflexivity.
Qed.

Lemma missing_field_guard_witness :
  GitTagger.main SimGit.git
    (Host.Doc (GitTagger.Request None None None))
    (SimGit.start (SimGit.Repo true [] "" true))
  = ((Host.Response false "Missing required field: version" [], 1),
     SimGit.start (SimGit.Repo true [] "" true)).
Proof.
  apply (proj1 (proj2 (missing_field_guard
                         _ SimGit.git (SimGit.start (SimGit.Repo true [] "" true))))).
  reflexivity.
Defined.

Lemma substring_all (s : string) : String.substring 0 (String.length s) s = s.
Proof. induction s as [|c s IH]; simpl; [reflexivity|now rewrite IH]. Qed.

Lemma replace_fuel_no_brace (new s : string) :
  PyStr.any (Ascii.eqb "{"%char) s = false ->
  forall fuel, PyStr.replace_fuel fuel "{version}" new s = s.
Proof.
  induction s as [|c s IH]; intros H fuel; destruct fuel as [|fuel];
    try reflexivity.
  simpl in H. apply orb_false_iff in H as [Hc Hs].
  cbn [PyStr.replace_fuel String.prefix].
  destruct (ascii_dec "{" c) as [E|_].
  - subst c. discriminate Hc.
  - now rewrite IH.
Qed.

Lemma replace_fuel_skips (new pre rest : string) :
  PyStr.any (Ascii.eqb "{"%char) pre = false ->
  forall fuel,
    PyStr.replace_fuel (String.length pre + fuel) "{version}" new (pre ++ rest)
    = pre ++ PyStr.replace_fuel fuel "{version}" new rest.
Proof.
  induction pre as [|c pre IH]; intros H fuel; [reflexivity|].
  simpl in H. apply orb_false_iff in H as [Hc Hs].
  cbn [String.length Nat.add append PyStr.replace_fuel String.prefix].
  destruct (ascii_dec "{" c) as [E|_].
  - subst c. discriminate Hc.
  - now rewrite IH.
Qed.

(** X19. The annotation message.  In a template that has the placeholder
    {version} once and no other brace, the placeholder is replaced by the
    version as it is (a version that itself contains the placeholder is not
    expanded again); without a message option the annotation is
    "Release <version>". *)
Theorem tag_message_substitutes_version
        (cfg : GitTagger.config) (version pre post : string) :
  PyStr.any (Ascii.eqb "{"%char) pre = false ->
  PyStr.any (Ascii.eqb "{"%char) post = false ->
  (GitTagger.opt_message cfg = Some (pre ++ "{version}" ++ post) ->
   GitTagger.tag_message_of cfg version = pre ++ version ++ post)
  /\ (GitTagger.opt_message cfg = None ->
      GitTagger.tag_message_of cfg version = "Release " ++ version).
Proof.
  intros Hpre Hpost.
  assert (Hgen : forall p q,
             PyStr.any (Ascii.eqb "{"%char) p = false ->
             PyStr.any (Ascii.eqb "{"%char) q = false ->
             PyStr.replace "{version}" version (p ++ "{version}" ++ q)
             = p ++ version ++ q).
  { intros p q Hp Hq. unfold PyStr.replace.
    rewrite length_append.
    change (String.length ("{version}" ++ q)) with (S (8 + String.length q)).
    rewrite (replace_fuel_skips version p _ Hp).
    f_equal.
    cbn [PyStr.replace_fuel append String.prefix].
    repeat (destruct (ascii_dec _ _) as [_|N]; [|now destruct N]).
    replace (String.prefix "" q) with true by (destruct q; reflexivity).
    f_equal.
    cbn [String.length Nat.sub String.substring].
    rewrite Nat.sub_0_r, substring_all. apply replace_fuel_no_brace, Hq. }
  split; intros Hm; unfold GitTagger.tag_message_of; rewrite Hm; cbn [Host.get].
  - apply Hgen; assumption.
  - transitivity ("Release " ++ version ++ "");
      [exact (Hgen "Release " "" eq_refl eq_refl)|now rewrite append_nil_r].
Qed.

Lemma tag_message_substitutes_version_witness :
  GitTagger.tag_message_of
    (GitTagger.Config None None None (Some "Version {version} is out") None) "2.0.0"
  = "Version 2.0.0 is out".
Proof.
  apply (proj1 (tag_message_substitutes_version
                  (GitTagger.Config None None None (Some "Version {version} is out") None)
                  "2.0.0" "Version " " is out" eq_refl eq_refl)).
  reflexivity.
Defined.

(** X20. Two calls in a row.  With push off, a tag that is not there and a
    git that lists a tag once it has created it, the first [create_tag]
    succeeds and the second one, run on the world the first left, is
    refused with "already exists" and leaves that world untouched. *)
Theorem second_create_is_refused
        (W : Type) (git : Host.oracle W)
        (version : string) (cfg : GitTagger.config) (project_root : string)
        (e : Host.env W) (out : string) (w2 : W) :
  let tag_name := GitTagger.tag_name_of cfg version in
  let first := GitTagger.create_tag git version cfg project_root e in
  GitTagger.tag_absent git project_root tag_name (Host.world e) ->
  git (GitTagger.tag_args_of cfg version) project_root (Host.world e)
  = (Host.Exit0 out, w2) ->
  Host.get (GitTagger.opt_push cfg) false = false ->
  GitTagger.tag_exists git project_root tag_name w2 ->
  fst first = Host.Ret (true, "Created tag " ++ tag_name)
  /\ Host.world (snd first) = w2
  /\ GitTagger.create_tag git version cfg project_root (snd first)
     = (Host.Ret (false, "Tag " ++ tag_name ++ " already exists"),
        Host.Env w2
          (Host.issued (snd first)
             ++ [GitTagger.list_args tag_name; GitTagger.list_args tag_name])).
Proof.
  intros tag_name first Habs Hc Hp (out' & Hl & Hout). subst first.
  destruct e as [w iss]. cbn [Host.world Host.issued] in *.
  rewrite (create_tag_when_absent _ git version cfg project_root w iss _ _ Habs Hc).
  rewrite Hp. cbn [fst snd Host.world Host.issued].
  split; [reflexivity|]. split; [reflexivity|].
  git_unfold. fold tag_name.
  git_answer Hl. git_answer Hl. rewrite Hout. git_reduce.
  now rewrite <- !app_assoc.
Qed.

Lemma second_create_is_refused_witness :
  let w := SimGit.Repo true [] "" true in
  let first := GitTagger.create_tag SimGit.git "1.2.0" GitTagger.no_config "/repo"
                                    (SimGit.start w) in
  fst first = Host.Ret (true, "Created tag v1.2.0")
  /\ Host.world (snd first) = SimGit.add_tag "v1.2.0" w
  /\ fst (GitTagger.create_tag SimGit.git "1.2.0" GitTagger.no_config "/repo"
                               (snd first))
     = Host.Ret (false, "Tag v1.2.0 already exists").
Proof.
  intros w first.
  destruct (second_create_is_refused
              _ SimGit.git "1.2.0" GitTagger.no_config "/repo" (SimGit.start w)
              "" (SimGit.add_tag "v1.2.0" w)) as (H1 & H2 & H3).
  - left. exists "". split; reflexivity.
  - reflexivity.
  - reflexivity.
  - exists "v1.2.0". split; reflexivity.
  - subst first. split; [exact H1|]. split; [exact H2|]. now rewrite H3.
Defined.

Lemma take_length_le (n : nat) (s : string) :
  String.length (PyStr.take n s) = Nat.min n (String.length s).
Proof.
  unfold PyStr.take. revert n.
  induction s as [|c s IH]; intros [|n]; simpl; try reflexivity.
  now rewrite IH.
Qed.

Lemma take_is_prefix (n : nat) (s : string) :
  exists r, s = PyStr.take n s ++ r.
Proof.
  unfold PyStr.take. revert n.
  induction s as [|c s IH]; intros [|n]; simpl; eauto.
  destruct (IH n) as [r Hr]. exists r. now rewrite <- Hr.
Qed.

(** X21. A line of the failure message shows at most the first 60
    characters of the commit message, always followed by "...", also when
    the message is shorter and nothing was cut, and then the reason. *)
Theorem error_detail_preview (commit error : string) :
  exists preview rest,
    CommitValidator.error_detail (commit, error)
    = "  - " ++ preview ++ "... -> " ++ error
    /\ commit = preview ++ rest
    /\ String.length preview = Nat.min 60 (String.length commit).
Proof.
  destruct (take_is_prefix 60 commit) as [rest Hrest].
  exists (PyStr.take 60 commit), rest.
  split; [reflexivity|]. split; [exact Hrest|apply take_length_le].
Qed.
